(** * SimpleDeltaGen: order-preserving SWU repackaging and the delta pipeline

    A shallow embedding of [simple-delta-gen.py] (class [SimpleDeltaGen]).

    The script is a sequence of file-system operations, log lines and child
    processes.  It is embedded as a state-and-exception monad over a [World]
    made of a file system, the log written so far and the list of child
    processes started so far.  Everything that is not code of the script is a
    field of a [Platform]: the external programs (one [spawn] oracle, indexed
    by the argument vector), [shutil.which], [pathlib]'s path algebra, the
    gzip codec and Python's number formatting.

    Conventions.
    - A Python [str] is a Rocq [string] read as a sequence of code points
      below 256, and [splitlines] and [strip] are Python's on that range;
      the bytes of a file are a [string] too.
    - A [Path] is its string form ([str(path)]).
    - [self.log] prints a line and appends it to the log file; both are
      modelled by the one list [log_lines], and logging is taken to succeed.
      The map [fs] therefore describes every path but the log file,
      [log_file].  File permissions are not modelled.
    - The output captured from a child process in text mode is taken to
      decode: [Exited] carries the decoded text.
    - [compression_ratio] is a Python float; it is modelled by the exact
      rational it approximates. *)

From stdpp Require Import base strings list gmap pretty.
From Stdlib Require Import Ascii ZArith QArith.

Open Scope string_scope.
Open Scope Z_scope.

(** ** Data model *)

(** What [stat] (following symbolic links) finds at a path. *)
Inductive Node :=
| File (data : string)  (* a regular file and its bytes *)
| Dir                   (* a directory *)
| Other.                (* any other kind of entry (a socket); it cannot be opened *)

(** Python exceptions the script can meet. *)
Inductive exn :=
| OSError (what : string)
| CalledProcessError (cmd : list string) (returncode : Z) (stderr : string).

(** How a child process ended: it ran and exited, or it could not be started. *)
Inductive proc :=
| Exited (returncode : Z) (stdout stderr : string)
| NotStarted.

(** A child process the script tried to start: argument vector, working
    directory and the data connected to its standard input. *)
Inductive Event :=
| Spawn (argv : list string) (cwd : option string) (stdin : option string).

Record World := mkWorld {
  fs : gmap string Node;
  log_lines : list string;
  trace : list Event
}.

(** The environment of the script. *)
Record Platform := mkPlatform {
  (* pathlib *)
  path_join : string -> string -> string;   (* [p / s] *)
  path_name : string -> string;             (* [p.name] *)
  path_stem : string -> string;             (* [p.stem] *)
  path_parent : string -> string;           (* [p.parent] *)
  path_within : string -> string -> bool;   (* [path_within d p]: [p] is [d] or lies under it *)
  (* the operating system *)
  dir_size : N;                             (* [st_size] of a directory *)
  which : string -> bool;                   (* [shutil.which(name)] finds a program *)
  spawn : list string -> option string -> option string ->
          gmap string Node -> proc * gmap string Node;
  gzip_deflate : string -> string;          (* gzip at level 6 *)
  (* string formatting *)
  fmt_group : Z -> string;                  (* [f"{n:,}"] *)
  fmt_group_signed : Z -> string;           (* [f"{n:+,}"] *)
  fmt_mb : Z -> string;                     (* [f"{n/1024/1024:.2f}"] *)
  fmt_fixed2 : Q -> string;                 (* [f"{x:.2f}"] *)
  str_exn : exn -> string                   (* [str(e)] *)
}.

(** The attributes of a [SimpleDeltaGen] object. *)
Record SimpleDeltaGen := mkJob {
  source_swu : string;
  target_swu : string;
  output_diff : string;
  log_dir : string;
  work_dir : string;
  recompressed_output : option string
}.

(** The five metrics of the statistics report. *)
Record Statistics := mkStatistics {
  st_source_size : Z;
  st_target_size : Z;
  st_diff_size : Z;
  st_compression_ratio : Q;
  st_space_saved : Z
}.

(** ** The monad *)

Inductive res (A : Type) :=
| Ret (a : A)
| Raise (e : exn).
Arguments Ret {A} a.
Arguments Raise {A} e.

Definition M (A : Type) : Type := World -> res A * World.

Definition ret {A} (a : A) : M A := fun w => (Ret a, w).

Definition bind {A B} (m : M A) (k : A -> M B) : M B :=
  fun w =>
    match m w with
    | (Ret a, w') => k a w'
    | (Raise e, w') => (Raise e, w')
    end.

Declare Scope prog_scope.
Delimit Scope prog_scope with prog.
Notation "x ← y ; z" := (bind y (fun x => z))
  (at level 20, y at level 100, z at level 200, only parsing) : prog_scope.
Notation "x ;; z" := (bind x (fun _ => z))
  (at level 100, z at level 200, only parsing, right associativity) : prog_scope.
Open Scope prog_scope.

(** [try: body except ...: handler]; [handler e = None] when no clause
    matches [e], which then propagates. *)
Definition try_except {A} (body : M A) (handler : exn -> option (M A)) : M A :=
  fun w =>
    match body w with
    | (Raise e, w') =>
        match handler e with
        | Some h => h w'
        | None => (Raise e, w')
        end
    | r => r
    end.

Definition raise {A} (e : exn) : M A := fun w => (Raise e, w).

Definition when (b : bool) (m : M unit) : M unit := if b then m else ret tt.

(** ** Python strings *)

Definition nl : string := String "010"%char EmptyString.

(** [str.isspace] on one character: tab to carriage return, the four
    separators, space, next line and no-break space. *)
Definition is_space (c : ascii) : bool :=
  let n := nat_of_ascii c in
  ((9 <=? n)%nat && (n <=? 13)%nat) || ((28 <=? n)%nat && (n <=? 32)%nat)
  || (n =? 133)%nat || (n =? 160)%nat.

(** The line boundaries of [str.splitlines]: line feed to carriage return,
    file, group and record separator, next line. *)
Definition is_linebreak (c : ascii) : bool :=
  let n := nat_of_ascii c in
  ((10 <=? n)%nat && (n <=? 13)%nat) || ((28 <=? n)%nat && (n <=? 30)%nat)
  || (n =? 133)%nat.

Fixpoint lstrip (s : string) : string :=
  match s with
  | String c s' => if is_space c then lstrip s' else s
  | EmptyString => EmptyString
  end.

Fixpoint rstrip (s : string) : string :=
  match s with
  | String c s' =>
      match rstrip s' with
      | EmptyString => if is_space c then EmptyString else String c EmptyString
      | r => String c r
      end
  | EmptyString => EmptyString
  end.

(** [s.strip()] *)
Definition strip (s : string) : string := rstrip (lstrip s).

(** [s.splitlines()]: a carriage return followed by a line feed is one
    boundary; no empty last line. *)
Fixpoint splitlines (s : string) : list string :=
  match s with
  | EmptyString => []
  | String c s' =>
      if is_linebreak c then
        EmptyString ::
          match s' with
          | String c' s'' =>
              if (Ascii.eqb c "013"%char && Ascii.eqb c' "010"%char)%bool
              then splitlines s'' else splitlines s'
          | EmptyString => splitlines s'
          end
      else
        match splitlines s' with
        | [] => [String c EmptyString]
        | l :: ls => String c l :: ls
        end
  end.

(** Truth value of a string: non-empty. *)
Definition nonempty (s : string) : bool :=
  match s with EmptyString => false | _ => true end.

(** [[line.strip() for line in stdout.splitlines() if line.strip()]] *)
Definition parse_listing (stdout : string) : list string :=
  strip <$> filter (fun line => nonempty (strip line) = true) (splitlines stdout).

(** ['\n'.join(file_list) + '\n'] *)
Definition feed (file_list : list string) : string :=
  String.concat nl file_list ++ nl.

(** The lines that the loop [while IFS= read -r file] of the archive
    command reads from its input: every line that ends in a line feed. *)
Fixpoint read_lines (s : string) : list string :=
  match s with
  | EmptyString => []
  | String c s' =>
      if Ascii.eqb c "010"%char then EmptyString :: read_lines s'
      else match read_lines s' with
           | [] => []
           | l :: ls => String c l :: ls
           end
  end.

(** The loop [while IFS= read -r file; do echo "$file"; done] of the archive
    command, line 223: what it writes to the pipe for the input it reads,
    where [echo s] is what the shell's [echo] writes for the one argument
    [s].  The [cpio -o] behind the pipe takes its member names from this
    output. *)
Definition name_loop (echo : string -> string) (input : string) : string :=
  String.concat EmptyString (echo <$> read_lines input).

(** [name in lst] *)
Definition contains (name : string) (l : list string) : bool :=
  bool_decide (name ∈ l).

(** [lst.remove(name)]: drops the first occurrence. *)
Fixpoint remove_first (name : string) (l : list string) : list string :=
  match l with
  | [] => []
  | x :: l' => if String.eqb x name then l' else x :: remove_first name l'
  end.

(** ["=" * 60] *)
Definition rule : string :=
  "============================================================".

Definition sw_description : string := "sw-description".

(** ** Operations on the world *)

Section Program.

Variable P : Platform.

(** [self.log(message)] *)
Definition log (message : string) : M unit :=
  fun w => (Ret tt, mkWorld (fs w) (log_lines w ++ [message]) (trace w)).

(** Logging a list of lines, one [self.log] each. *)
Fixpoint log_each (messages : list string) : M unit :=
  match messages with
  | [] => ret tt
  | m :: ms => log m ;; log_each ms
  end.

Definition st_size (n : Node) : Z :=
  match n with
  | File data => Z.of_nat (String.length data)
  | Dir => Z.of_N (dir_size P)
  | Other => 0
  end.

Definition is_file_in (f : gmap string Node) (p : string) : bool :=
  match f !! p with Some (File _) => true | _ => false end.

Definition is_dir_in (f : gmap string Node) (p : string) : bool :=
  match f !! p with Some Dir => true | _ => false end.

Definition exists_in (f : gmap string Node) (p : string) : bool :=
  match f !! p with Some _ => true | None => false end.

Definition set_fs (f : gmap string Node) (w : World) : World :=
  mkWorld f (log_lines w) (trace w).

(** [p.stat().st_size]; raises when nothing is at [p]. *)
Definition stat (p : string) : M Z :=
  fun w =>
    match fs w !! p with
    | Some n => (Ret (st_size n), w)
    | None => (Raise (OSError p), w)
    end.

(** [p.is_file()] and [p.exists()] never raise. *)
Definition is_file (p : string) : M bool :=
  fun w => (Ret (is_file_in (fs w) p), w).

Definition path_exists (p : string) : M bool :=
  fun w => (Ret (exists_in (fs w) p), w).

(** [p.mkdir(exist_ok=True)] *)
Definition mkdir_exist_ok (p : string) : M unit :=
  fun w =>
    match fs w !! p with
    | Some Dir => (Ret tt, w)
    | Some _ => (Raise (OSError p), w)
    | None =>
        if is_dir_in (fs w) (path_parent P p)
        then (Ret tt, set_fs (<[p := Dir]> (fs w)) w)
        else (Raise (OSError p), w)
    end.

(** [open(p, 'rb')] and reading it to the end. *)
Definition open_rb (p : string) : M string :=
  fun w =>
    match fs w !! p with
    | Some (File data) => (Ret data, w)
    | _ => (Raise (OSError p), w)
    end.

(** The file system after [open(p, 'wb')]: the file is created, or the one
    that is there is truncated; [None] when the file cannot be opened. *)
Definition create_or_truncate (f : gmap string Node) (p : string)
  : option (gmap string Node) :=
  match f !! p with
  | Some (File _) => Some (<[p := File EmptyString]> f)
  | Some _ => None
  | None =>
      if is_dir_in f (path_parent P p)
      then Some (<[p := File EmptyString]> f)
      else None
  end.

(** [open(p, 'wb')] *)
Definition open_wb (p : string) : M unit :=
  fun w =>
    match create_or_truncate (fs w) p with
    | Some f => (Ret tt, set_fs f w)
    | None => (Raise (OSError p), w)
    end.

(** What has been written to the open file [p] when it is closed. *)
Definition write_opened (p : string) (data : string) : M unit :=
  fun w => (Ret tt, set_fs (<[p := File data]> (fs w)) w).

(** The file system without [d] and what lies under it. *)
Definition remove_tree (d : string) (f : gmap string Node) : gmap string Node :=
  filter (fun kv => path_within P d (fst kv) = false) f.

(** [shutil.rmtree(d, ignore_errors=True)], taken to remove the whole tree:
    the errors that it ignores are not modelled. *)
Definition rmtree (d : string) : M unit :=
  fun w => (Ret tt, set_fs (remove_tree d (fs w)) w).

(** Starting a child process and waiting for it. *)
Definition start (argv : list string) (cwd stdin : option string) : M proc :=
  fun w =>
    let '(p, f) := spawn P argv cwd stdin (fs w) in
    (Ret p, mkWorld f (log_lines w) (trace w ++ [Spawn argv cwd stdin])).

(** [subprocess.run(argv, cwd=cwd, stdin=..., check=True, capture_output=True)];
    the result is [(stdout, stderr)]. *)
Definition subprocess_run (argv : list string) (cwd stdin : option string)
  : M (string * string) :=
  p ← start argv cwd stdin;
  match p with
  | NotStarted => raise (OSError (hd EmptyString argv))
  | Exited rc out err =>
      if rc =? 0 then ret (out, err)
      else raise (CalledProcessError argv rc err)
  end.

(** [subprocess.Popen(argv, cwd=cwd, stdin=PIPE, stdout=open(out, 'wb'),
    stderr=PIPE)] followed by [communicate(input)]: the output file is opened
    before the process is started; the result is [(returncode, stderr)]. *)
Definition popen_communicate (argv : list string) (cwd out input : string)
  : M (Z * string) :=
  open_wb out ;;
  p ← start argv (Some cwd) (Some input);
  match p with
  | NotStarted => raise (OSError (hd EmptyString argv))
  | Exited rc stdout stderr => write_opened out stdout ;; ret (rc, stderr)
  end.

(** Exception clauses. *)
Definition except_CalledProcessError {A} (h : exn -> M A) (e : exn) : option (M A) :=
  match e with
  | CalledProcessError _ _ _ => Some (h e)
  | _ => None
  end.

Definition except_OSError {A} (h : exn -> M A) (e : exn) : option (M A) :=
  match e with
  | OSError _ => Some (h e)
  | _ => None
  end.

Definition except_Exception {A} (h : exn -> M A) (e : exn) : option (M A) :=
  Some (h e).

(** The lines [  i. fname] for the first ten names, numbered from 1. *)
Definition first_ten (names : list string) : list string :=
  imap (fun i fname => "  " ++ pretty (S i) ++ ". " ++ fname) (take 10 names).

Definition log_names (names : list string) : M unit :=
  log_each (first_ten names) ;;
  when (10 <? Z.of_nat (length names))
       (log ("  ... and " ++ pretty (Z.of_nat (length names) - 10) ++ " more files")).

(** ** The methods of [SimpleDeltaGen] *)

Variable self : SimpleDeltaGen.

(** [run_command], lines 47-65. *)
Definition run_command (cmd : list string) (description : string) : M bool :=
  log ("Running: " ++ description) ;;
  log ("Command: " ++ String.concat " " cmd) ;;
  try_except
    (result ← subprocess_run cmd None None;
     when (nonempty (fst result)) (log ("Output: " ++ fst result)) ;;
     ret true)
    (fun e =>
       match e with
       | CalledProcessError _ returncode stderr =>
           Some (log ("ERROR: Command failed with code " ++ pretty returncode) ;;
                 log ("STDERR: " ++ stderr) ;;
                 ret false)
       | _ => None
       end).

Definition cpio_list_argv : list string := ["cpio"; "-it"].
Definition cpio_extract_argv : list string := ["cpio"; "-idmv"].

Definition listing_warning (swu_file : string) (e : exn) : string :=
  "WARNING: Failed to list files from " ++ path_name P swu_file
  ++ ": " ++ str_exn P e.

(** [extract_swu], lines 67-112: [None] is Python's [None]. *)
Definition extract_swu (swu_file extract_dir : string) : M (option (list string)) :=
  log ("Extracting " ++ path_name P swu_file ++ " to " ++ extract_dir) ;;
  file_order ←
    try_except
      (f ← open_rb swu_file;
       result ← subprocess_run cpio_list_argv None (Some f);
       let file_order := parse_listing (fst result) in
       log ("Original file order (" ++ pretty (length file_order) ++ " files):") ;;
       log_names file_order ;;
       ret file_order)
      (except_CalledProcessError (fun e =>
         log (listing_warning swu_file e) ;;
         ret []));
  try_except
    (f ← open_rb swu_file;
     subprocess_run cpio_extract_argv (Some extract_dir) (Some f) ;;
     log ("Extracted " ++ path_name P swu_file ++ " successfully") ;;
     ret (match file_order with [] => None | _ => Some file_order end))
    (except_CalledProcessError (fun e =>
       log ("Failed to extract " ++ path_name P swu_file ++ ": " ++ str_exn P e) ;;
       ret None)).

(** [create_bsdiff], lines 129-139. *)
Definition create_bsdiff (source_file target_file diff_file : string) : M bool :=
  log ("Creating bsdiff: " ++ path_name P source_file ++ " -> "
       ++ path_name P target_file) ;;
  if negb (which P "bsdiff") then
    log "ERROR: bsdiff not found in PATH" ;; ret false
  else
    run_command ["bsdiff"; source_file; target_file; diff_file]
                "Binary diff with bsdiff".

(** [compress_with_gzip], lines 152-159. *)
Definition compress_with_gzip (input_file output_file : string) : M bool :=
  log ("Compressing " ++ path_name P input_file ++ " with gzip") ;;
  open_rb input_file ;;
  open_wb output_file ;;
  data ← open_rb input_file;   (* the copy reads once both files are open *)
  write_opened output_file (gzip_deflate P data) ;;
  ret true.

(** [compress_with_zstd], lines 141-150, at the default [level=3]. *)
Definition compress_with_zstd (input_file output_file : string) : M bool :=
  log ("Compressing " ++ path_name P input_file ++ " with zstd") ;;
  if negb (which P "zstd") then
    log "WARNING: zstd not found, using gzip" ;;
    compress_with_gzip input_file output_file
  else
    run_command ["zstd"; "-f"; "-3"; input_file; "-o"; output_file]
                "Compress with zstd".

(** The control member is first: the negation of the test of line 189,
    [not original_file_order or original_file_order[0] != "sw-description"]. *)
Definition control_is_first (order : list string) : bool :=
  match order with
  | [] => false
  | first :: _ => String.eqb first sw_description
  end.

(** Lines 193-195: one occurrence of the control member is removed, if there
    is one, and the name is inserted at position 0. *)
Definition corrected_order (order : list string) : list string :=
  sw_description ::
    (if contains sw_description order then remove_first sw_description order
     else order).

Definition skip_warning (fname : string) : string :=
  "WARNING: File " ++ fname ++ " from CPIO listing not found on disk, skipping".

(** The loop of lines 198-204; [file_list] is the list built so far. *)
Fixpoint verify_files (temp_extract : string) (order file_list : list string)
  : M (list string) :=
  match order with
  | [] => ret file_list
  | fname :: rest =>
      found ← is_file (path_join P temp_extract fname);
      if found then verify_files temp_extract rest (file_list ++ [fname])
      else log (skip_warning fname) ;; verify_files temp_extract rest file_list
  end.

Definition dquote : string := String "034"%char EmptyString.

(** The archive-construction command of line 223. *)
Definition cpio_create_argv : list string :=
  ["sh"; "-c";
   "while IFS= read -r file; do echo " ++ dquote ++ "$file" ++ dquote
   ++ "; done | cpio -o -H crc --reproducible"].

Definition order_warning : string :=
  "WARNING: sw-description is not first in original file order!".

(** [recompress_swu], lines 206-253: the archive is built from the verified
    member list. *)
Definition build_archive (temp_extract : string) (original_size : Z)
    (output_swu : string) (file_list : list string) : M bool :=
  match file_list with
  | [] => log "ERROR: No files to recompress!" ;; ret false
  | _ =>
      log ("Recompressing with ORIGINAL file order ("
           ++ pretty (length file_list) ++ " files):") ;;
      log_names file_list ;;
      log "Creating recompressed CPIO archive with original file order..." ;;
      try_except
        (r ← popen_communicate cpio_create_argv temp_extract output_swu
               (feed file_list);
         if negb (fst r =? 0) then
           log ("ERROR: CPIO failed: " ++ snd r) ;; ret false
         else
           recompressed_size ← stat output_swu;
           log ("Original size: " ++ fmt_group P original_size ++ " bytes") ;;
           log ("Recompressed size: " ++ fmt_group P recompressed_size ++ " bytes") ;;
           when (0 <? original_size)
                (log ("Size difference: "
                      ++ fmt_group_signed P (recompressed_size - original_size)
                      ++ " bytes")) ;;
           log "Recompression completed successfully!" ;;
           rmtree temp_extract ;;
           ret true)
        (except_Exception (fun e =>
           log ("ERROR during recompression: " ++ str_exn P e) ;;
           rmtree temp_extract ;;
           ret false))
  end.

(** [recompress_swu] from line 188 on: the member order has been obtained. *)
Definition recompress_from (temp_extract : string) (original_size : Z)
    (output_swu : string) (listed : list string) : M bool :=
  original_file_order ←
    (if negb (control_is_first listed) then
       log order_warning ;;
       log "This may indicate an invalid SWU file." ;;
       ret (corrected_order listed)
     else ret listed);
  file_list ← verify_files temp_extract original_file_order [];
  build_archive temp_extract original_size output_swu file_list.

(** The scratch directory of line 180. *)
Definition scratch_dir (original_swu : string) : string :=
  path_join P (work_dir self) ("recompress_" ++ path_stem P original_swu).

(** The log file of line 43. *)
Definition log_file : string := path_join P (log_dir self) "delta-generation.log".

(** [recompress_swu], lines 167-181: the banner, the guarded size and the
    scratch directory; the result is the original size.  These are the
    steps of [recompress_extract] before it calls [extract_swu]. *)
Definition recompress_prepare (original_swu output_swu : string) : M Z :=
  log rule ;;
  log ("Recompressing SWU: " ++ path_name P original_swu) ;;
  log ("Output: " ++ output_swu) ;;
  log rule ;;
  original_size ←
    try_except (stat original_swu)
      (except_OSError (fun _ =>
         log "WARNING: Could not stat original file (may have been cleaned)" ;;
         ret 0));
  mkdir_exist_ok (scratch_dir original_swu) ;;
  ret original_size.

(** [recompress_swu] up to line 183: the result is the original size and
    what [extract_swu] returned. *)
Definition recompress_extract (original_swu output_swu : string)
  : M (Z * option (list string)) :=
  log rule ;;
  log ("Recompressing SWU: " ++ path_name P original_swu) ;;
  log ("Output: " ++ output_swu) ;;
  log rule ;;
  original_size ←
    try_except (stat original_swu)
      (except_OSError (fun _ =>
         log "WARNING: Could not stat original file (may have been cleaned)" ;;
         ret 0));
  mkdir_exist_ok (scratch_dir original_swu) ;;
  original_file_order ← extract_swu original_swu (scratch_dir original_swu);
  ret (original_size, original_file_order).

(** [recompress_swu], lines 161-253. *)
Definition recompress_swu (original_swu output_swu : string) : M bool :=
  r ← recompress_extract original_swu output_swu;
  match snd r with
  | None => log "ERROR: Failed to extract SWU" ;; ret false
  | Some listed =>
      recompress_from (scratch_dir original_swu) (fst r) output_swu listed
  end.

(** The metrics of [generate_statistics], lines 322-326 and 336. *)
Definition statistics_of (source_size target_size diff_size : Z) : Statistics :=
  {| st_source_size := source_size;
     st_target_size := target_size;
     st_diff_size := diff_size;
     st_compression_ratio :=
       if 0 <? target_size
       then ((inject_Z diff_size / inject_Z target_size) * inject_Z 100)%Q
       else 0%Q;
     st_space_saved := target_size - diff_size |}.

(** The text of the report, lines 330-336. *)
Definition render_statistics (st : Statistics) : string :=
  "Delta Generation Statistics" ++ nl
  ++ "===========================" ++ nl ++ nl
  ++ "Source size: " ++ fmt_group P (st_source_size st) ++ " bytes ("
  ++ fmt_mb P (st_source_size st) ++ " MB)" ++ nl
  ++ "Target size: " ++ fmt_group P (st_target_size st) ++ " bytes ("
  ++ fmt_mb P (st_target_size st) ++ " MB)" ++ nl
  ++ "Delta size:  " ++ fmt_group P (st_diff_size st) ++ " bytes ("
  ++ fmt_mb P (st_diff_size st) ++ " MB)" ++ nl
  ++ "Compression: " ++ fmt_fixed2 P (st_compression_ratio st) ++ "% of target" ++ nl
  ++ "Space saved: " ++ fmt_group P (st_space_saved st) ++ " bytes" ++ nl.

Definition stats_file : string := path_join P (log_dir self) "statistics.txt".

(** [generate_statistics], lines 320-338. *)
Definition generate_statistics (source_file target_file diff_file : string) : M unit :=
  source_size ← stat source_file;
  target_size ← stat target_file;
  diff_size ← stat diff_file;
  open_wb stats_file ;;
  write_opened stats_file
    (render_statistics (statistics_of source_size target_size diff_size)) ;;
  log ("Statistics written to " ++ stats_file).

(** [generate_delta], lines 257-271: the banner and the size probe. *)
Definition size_probe : M unit :=
  log rule ;;
  log "Starting SWU-to-SWU Delta Generation" ;;
  log ("Source: " ++ source_swu self) ;;
  log ("Target: " ++ target_swu self) ;;
  log ("Output Delta: " ++ output_diff self) ;;
  match recompressed_output self with
  | Some r => log ("Output Recompressed: " ++ r)
  | None => ret tt
  end ;;
  log rule ;;
  source_size ← stat (source_swu self);
  target_size ← stat (target_swu self);
  log ("Source SWU size: " ++ fmt_group P source_size ++ " bytes ("
       ++ fmt_mb P source_size ++ " MB)") ;;
  log ("Target SWU size: " ++ fmt_group P target_size ++ " bytes ("
       ++ fmt_mb P target_size ++ " MB)") ;;
  log EmptyString.

Definition fallback_warning : string :=
  "WARNING: Recompression failed, using original target".

Definition step1_message : string :=
  "Step 1: Recompressing target SWU for deterministic delta...".

(** [generate_delta], lines 273-284: the result is [target_for_diff]. *)
Definition select_target : M string :=
  match recompressed_output self with
  | Some r =>
      log step1_message ;;
      ok ← recompress_swu (target_swu self) r;
      if negb ok then log fallback_warning ;; ret (target_swu self)
      else log "Using recompressed target for delta generation" ;; ret r
  | None =>
      log "No recompression requested, using original target" ;;
      ret (target_swu self)
  end.

Definition temp_diff : string := path_join P (work_dir self) "swu.diff".

(** [generate_delta], lines 286-318: diff, compression and statistics. *)
Definition diff_and_report (target_for_diff : string) : M bool :=
  log EmptyString ;;
  log "Step 2: Creating binary diff between SWU files..." ;;
  log "This approach diffs the complete .swu files (compressed archives)" ;;
  log "which are smaller and faster than extracting/diffing internal images." ;;
  log "This may take several minutes..." ;;
  log EmptyString ;;
  diffed ← create_bsdiff (source_swu self) target_for_diff temp_diff;
  if negb diffed then ret false else
  log "Step 3: Compressing diff file..." ;;
  compressed ← compress_with_zstd temp_diff (output_diff self);
  if negb compressed then ret false else
  log "Step 4: Generating statistics..." ;;
  match recompressed_output self with
  | Some r =>
      there ← path_exists r;
      if there
      then generate_statistics (source_swu self) r (output_diff self)
      else generate_statistics (source_swu self) (target_swu self) (output_diff self)
  | None =>
      generate_statistics (source_swu self) (target_swu self) (output_diff self)
  end ;;
  log rule ;;
  log "Delta generation completed successfully!" ;;
  log ("Delta file: " ++ output_diff self) ;;
  match recompressed_output self with
  | Some r => log ("Recompressed target: " ++ r)
  | None => ret tt
  end ;;
  log rule ;;
  ret true.

(** [generate_delta], lines 255-318. *)
Definition generate_delta : M bool :=
  size_probe ;;
  target_for_diff ← select_target;
  diff_and_report target_for_diff.

End Program.

(** ** A small platform for examples

    The programs of this platform work on a toy archive format: an archive is
    a text with one line per member, [name] for a regular file (whose content
    is its name) and [name/] for a directory.  [old_cpio] says that the
    installed cpio does not know the option [--reproducible] of the
    archive-construction command; [bad_listing] makes [cpio -it] fail.  The
    shell is bash: the loop of the archive command passes every name
    through its [echo]. *)

Module Demo.

Fixpoint after_last (c0 : ascii) (s : string) : option string :=
  match s with
  | EmptyString => None
  | String c s' =>
      match after_last c0 s' with
      | Some r => Some r
      | None => if Ascii.eqb c c0 then Some s' else None
      end
  end.

Fixpoint before_last (c0 : ascii) (s : string) : option string :=
  match s with
  | EmptyString => None
  | String c s' =>
      match before_last c0 s' with
      | Some r => Some (String c r)
      | None => if Ascii.eqb c c0 then Some EmptyString else None
      end
  end.

Definition name (p : string) : string := default p (after_last "/" p).
Definition stem (p : string) : string := default (name p) (before_last "." (name p)).
Definition parent (p : string) : string := default "." (before_last "/" p).
Definition join (p s : string) : string :=
  if String.prefix "/" s then s else p ++ "/" ++ s.
Definition within (d p : string) : bool :=
  String.eqb d p || String.prefix (d ++ "/") p.

(** The members of a toy archive: name and whether it is a directory. *)
Definition members (archive : string) : list (string * bool) :=
  (fun line =>
     match before_last "/" line with
     | Some d => if String.eqb (d ++ "/") line then (d, true) else (line, false)
     | None => (line, false)
     end) <$> read_lines archive.

Definition unpack (cwd : string) (f : gmap string Node) (m : string * bool)
  : gmap string Node :=
  <[join cwd (fst m) := if snd m then Dir else File (fst m)]> f.

Definition pack (cwd : string) (f : gmap string Node) (names : list string) : string :=
  String.concat EmptyString
    ((fun n => n ++ nl) <$> filter (fun n => is_file_in f (join cwd n) = true) names).

(** What [echo "$file"] writes when [sh] is bash: an argument made of [-]
    and one or more of the letters [n], [e] and [E] is taken as options and
    is not printed, and with [n] among them no line feed is written either;
    any other argument is written as it is, followed by a line feed. *)
Definition echo_flag (c : ascii) : bool :=
  Ascii.eqb c "n" || Ascii.eqb c "e" || Ascii.eqb c "E".

Definition echo (s : string) : string :=
  match s with
  | String "-" (String c r) =>
      if forallb echo_flag (c :: String.list_ascii_of_string r)
      then if existsb (Ascii.eqb "n") (c :: String.list_ascii_of_string r)
           then EmptyString else nl
      else s ++ nl
  | _ => s ++ nl
  end.

(** The programs of the toy platform.  A process whose working directory is
    not a directory cannot be started. *)
Definition run (old_cpio bad_listing : bool) (argv : list string)
    (cwd stdin : option string) (f : gmap string Node) : proc * gmap string Node :=
  if negb (match cwd with Some d => is_dir_in f d | None => true end)
  then (NotStarted, f)
  else if bool_decide (argv = cpio_list_argv) then
    if bad_listing then (Exited 2 EmptyString "cpio: premature end of archive", f)
    else (Exited 0 (String.concat EmptyString
                      ((fun m => fst m ++ nl) <$> members (default EmptyString stdin)))
                 EmptyString, f)
  else if bool_decide (argv = cpio_extract_argv) then
    (Exited 0 EmptyString EmptyString,
     foldl (unpack (default "." cwd)) f (members (default EmptyString stdin)))
  else if bool_decide (argv = cpio_create_argv) then
    if old_cpio then
      (Exited 2 EmptyString "cpio: unrecognized option '--reproducible'", f)
    else
      (Exited 0 (pack (default "." cwd) f
                   (read_lines (name_loop echo (default EmptyString stdin))))
              EmptyString, f)
  else
    match argv with
    | [prog; src; tgt; out] =>
        if String.eqb prog "bsdiff" then
          match f !! src, f !! tgt with
          | Some (File a), Some (File b) =>
              (Exited 0 EmptyString EmptyString, <[out := File ("BSDIFF40" ++ b)]> f)
          | _, _ => (Exited 1 EmptyString "bsdiff: cannot open input", f)
          end
        else (NotStarted, f)
    | [prog; _; _; input; _; out] =>
        if String.eqb prog "zstd" then
          match f !! input with
          | Some (File a) => (Exited 0 EmptyString EmptyString, <[out := File ("zstd:" ++ a)]> f)
          | _ => (Exited 1 EmptyString "zstd: cannot open input", f)
          end
        else (NotStarted, f)
    | _ => (NotStarted, f)
    end.

Definition show_exn (e : exn) : string :=
  match e with
  | OSError what => "[Errno 2] No such file or directory: " ++ what
  | CalledProcessError cmd rc _ =>
      "Command " ++ String.concat " " cmd ++ " returned non-zero exit status "
      ++ pretty rc ++ "."
  end.

Definition platform (old_cpio bad_listing : bool) : Platform :=
  {| path_join := join;
     path_name := name;
     path_stem := stem;
     path_parent := parent;
     path_within := within;
     dir_size := 4096%N;
     which := fun prog => true;
     spawn := run old_cpio bad_listing;
     gzip_deflate := fun data => "gzip:" ++ data;
     fmt_group := pretty;
     fmt_group_signed := fun n => (if 0 <=? n then "+" else EmptyString) ++ pretty n;
     fmt_mb := fun n => pretty (n / 1048576);
     fmt_fixed2 := fun q => pretty (Qnum q / Zpos (Qden q));
     str_exn := show_exn |}.

Definition job : SimpleDeltaGen :=
  {| source_swu := "in/v1.swu";
     target_swu := "in/v2.swu";
     output_diff := "out/v1-v2.diff";
     log_dir := "logs";
     work_dir := "work";
     recompressed_output := Some "out/v2-recompressed.swu" |}.

Definition archive (lines : list string) : string :=
  String.concat EmptyString ((fun n => n ++ nl) <$> lines).

(** A file system as [__init__] leaves it, with the two input archives. *)
Definition disk (source target : list string) : gmap string Node :=
  list_to_map
    [ ("in", Dir); ("out", Dir); ("logs", Dir); ("work", Dir);
      ("work/source", Dir); ("work/target", Dir);
      ("in/v1.swu", File (archive source));
      ("in/v2.swu", File (archive target)) ].

Definition world (f : gmap string Node) : World := mkWorld f [] [].

Definition v2 : string := "in/v2.swu".
Definition out : string := "out/v2-recompressed.swu".
Definition scratch : string := "work/recompress_v2".
Definition two : list string := ["sw-description"; "rootfs.img"].

(** cpio knows [--reproducible]; cpio does not; [cpio -it] fails. *)
Definition P_new : Platform := platform false false.
Definition P_old : Platform := platform true false.
Definition P_unlisted : Platform := platform false true.

(** Jobs: the target is well formed; its control member comes second and it
    holds a directory; it has no control member; it holds only a directory;
    the same in a work directory that a failed run left behind; the source
    archive is missing. *)
Definition w_plain : World := world (disk two two).
Definition w_swapped : World := world (disk two ["rootfs.img"; "sw-description"; "d/"]).
Definition w_headless : World := world (disk two ["rootfs.img"; "d/"]).
Definition w_dir : World := world (disk two ["d/"]).
Definition w_stale : World :=
  world (<["work/recompress_v2" := Dir]>
           (<["work/recompress_v2/sw-description" := File "sw-description"]>
              (disk two ["d/"]))).
Definition w_sourceless : World := world (delete "in/v1.swu" (disk two two)).

(** The work directory holds the scratch directory of the target. *)
Definition w_ready : World := world (<["work/recompress_v2" := Dir]> (disk two two)).

(** The target holds a member named [-n]. *)
Definition w_dashed : World := world (disk two ["sw-description"; "-n"]).

(** The job of [job] with the target itself as the recompressed output. *)
Definition job_inplace : SimpleDeltaGen :=
  {| source_swu := "in/v1.swu";
     target_swu := "in/v2.swu";
     output_diff := "out/v1-v2.diff";
     log_dir := "logs";
     work_dir := "work";
     recompressed_output := Some "in/v2.swu" |}.

(** A job whose target lies in the scratch directory of its recompression,
    and whose recompressed output is in a directory that does not exist. *)
Definition job_nested : SimpleDeltaGen :=
  {| source_swu := "in/v1.swu";
     target_swu := "work/recompress_v2/v2.swu";
     output_diff := "out/v1-v2.diff";
     log_dir := "logs";
     work_dir := "work";
     recompressed_output := Some "nowhere/v2.swu" |}.

Definition w_nested : World :=
  world (<["work/recompress_v2/v2.swu" := File (archive two)]>
           (<["work/recompress_v2" := Dir]> (disk two two))).

(** A platform on which no program can be found or started. *)
Definition P_bare : Platform :=
  {| path_join := join;
     path_name := name;
     path_stem := stem;
     path_parent := parent;
     path_within := within;
     dir_size := 4096%N;
     which := fun prog => false;
     spawn := fun argv cwd stdin f => (NotStarted, f);
     gzip_deflate := fun data => "gzip:" ++ data;
     fmt_group := pretty;
     fmt_group_signed := fun n => (if 0 <=? n then "+" else EmptyString) ++ pretty n;
     fmt_mb := fun n => pretty (n / 1048576);
     fmt_fixed2 := fun q => pretty (Qnum q / Zpos (Qden q));
     str_exn := show_exn |}.

(** The job of [job] without a recompressed output. *)
Definition job_plain : SimpleDeltaGen :=
  {| source_swu := "in/v1.swu";
     target_swu := "in/v2.swu";
     output_diff := "out/v1-v2.diff";
     log_dir := "logs";
     work_dir := "work";
     recompressed_output := None |}.

(** A world in which the diff step has left its file. *)
Definition w_diffed : World :=
  world (<["work/swu.diff" := File "BSDIFF40"]> (disk two two)).

(** The world in which the member order has been obtained. *)
Abbreviation extracted P w0 := (snd (recompress_extract P job v2 out w0)).

(** The file system in which the output file has been opened. *)
Abbreviation opened P w0 :=
  (default ∅ (create_or_truncate P (fs (extracted P w0)) out)).

(** The file system that the archive-construction process leaves. *)
Abbreviation built P w0 file_list :=
  (snd (spawn P cpio_create_argv (Some scratch) (Some (feed file_list))
              (opened P w0))).

End Demo.


(** ** Vocabulary of the statements *)

Fixpoint chars (s : string) : list ascii :=
  match s with
  | EmptyString => []
  | String c s' => c :: chars s'
  end.

(** A name the listing can hold: it has no line boundary in it. *)
Definition one_line (s : string) : Prop :=
  forall c, c ∈ chars s -> is_linebreak c = false.

(** The world after the lines [l] have been logged. *)
Definition add_log (w : World) (l : list string) : World :=
  mkWorld (fs w) (log_lines w ++ l) (trace w).

(** [message] was logged on the way from [w] to [w']. *)
Definition logged_between (w w' : World) (message : string) : Prop :=
  exists before after,
    log_lines w' = (log_lines w ++ before ++ message :: after)%list.

(** The members of [order] that are regular files under [dir] in [f]. *)
Definition on_disk (P : Platform) (f : gmap string Node) (dir : string)
    (order : list string) : list string :=
  filter (fun fname => is_file_in f (path_join P dir fname) = true) order.

Definition missing (P : Platform) (f : gmap string Node) (dir : string)
    (order : list string) : list string :=
  filter (fun fname => is_file_in f (path_join P dir fname) <> true) order.

(** The order that [recompress_swu] verifies, lines 188-195. *)
Definition effective_order (listed : list string) : list string :=
  if control_is_first listed then listed else corrected_order listed.

(** The child process that builds the archive from [file_list] in [dir]. *)
Definition build_event (dir : string) (file_list : list string) : Event :=
  Spawn cpio_create_argv (Some dir) (Some (feed file_list)).

(** The lines that [log_names] writes. *)
Definition names_lines (names : list string) : list string :=
  app (first_ten names)
      (if 10 <? Z.of_nat (length names)
       then ["  ... and " ++ pretty (Z.of_nat (length names) - 10) ++ " more files"]
       else []).

(** Every run of [m] takes a world to one that is [R]-related to it. *)
Definition respects (R : World -> World -> Prop) {A} (m : M A) : Prop :=
  forall w, R w (snd (m w)).

(** What [build_archive] does to a file system [f] for a non-empty
    [file_list]: its result, the file system it leaves and the processes it
    starts. *)
Definition build_outcome (P : Platform) (temp_extract output_swu : string)
    (file_list : list string) (f : gmap string Node)
  : bool * gmap string Node * list Event :=
  match create_or_truncate P f output_swu with
  | None => (false, remove_tree P temp_extract f, [])
  | Some f1 =>
      match spawn P cpio_create_argv (Some temp_extract) (Some (feed file_list)) f1 with
      | (NotStarted, f2) =>
          (false, remove_tree P temp_extract f2, [build_event temp_extract file_list])
      | (Exited rc stdout _, f2) =>
          if rc =? 0
          then (true, remove_tree P temp_extract (<[output_swu := File stdout]> f2),
                [build_event temp_extract file_list])
          else (false, <[output_swu := File stdout]> f2,
                [build_event temp_extract file_list])
      end
  end.

(** What [recompress_from] does to a file system: nothing when no listed
    member is on disk, [build_outcome] on the verified list otherwise. *)
Definition recompress_outcome (P : Platform) (temp_extract output_swu : string)
    (listed : list string) (f : gmap string Node)
  : bool * gmap string Node * list Event :=
  match on_disk P f temp_extract (effective_order listed) with
  | [] => (false, f, [])
  | file_list => build_outcome P temp_extract output_swu file_list f
  end.

(** Whatever is at [p] stays there, unchanged. *)
Definition keeps (p : string) (w w' : World) : Prop :=
  forall node, fs w !! p = Some node -> fs w' !! p = Some node.

(** The cpio commands of the script, run as [recompress_swu] runs them with
    the scratch directory [scratch], leave what is at [p] alone. *)
Definition tools_keep (P : Platform) (scratch p : string) : Prop :=
  forall argv cwd stdin f node,
    (argv, cwd) ∈ [(cpio_list_argv, None);
                   (cpio_extract_argv, Some scratch);
                   (cpio_create_argv, Some scratch)] ->
    f !! p = Some node ->
    (spawn P argv cwd stdin f).2 !! p = Some node.

(** The size that [stat] reports for [p] in [f]; 0 when nothing is there. *)
Definition size_at (P : Platform) (f : gmap string Node) (p : string) : Z :=
  match f !! p with
  | Some node => st_size P node
  | None => 0
  end.

(** The archive whose size the report gives as the target size, lines
    306-309, in the file system [f]. *)
Definition reported_target (self : SimpleDeltaGen) (f : gmap string Node) : string :=
  match recompressed_output self with
  | Some r => if exists_in f r then r else target_swu self
  | None => target_swu self
  end.

Definition bsdiff_event (self : SimpleDeltaGen) (P : Platform)
    (target_for_diff : string) : Event :=
  Spawn ["bsdiff"; source_swu self; target_for_diff; temp_diff P self] None None.

(** A name as a parsed listing holds it: not empty, on one line, and with no
    white space at either end. *)
Definition clean (s : string) : Prop :=
  s <> EmptyString /\ one_line s /\ strip s = s.

(** What the lister finds in the archive [data]: the parsed output of
    [cpio -it], whatever the file system is. *)
Definition lists (P : Platform) (data : string) (names : list string) : Prop :=
  forall f, exists out err,
    spawn P cpio_list_argv None (Some data) f = (Exited 0 out err, f)
    /\ parse_listing out = names.

(** ** Strings and lists *)

Example splitlines_boundaries :
  splitlines ("a" ++ String "013"%char nl ++ "b" ++ String "013"%char "c" ++ nl ++ nl ++ "d")
  = ["a"; "b"; "c"; EmptyString; "d"].
Proof. reflexivity. Qed.

Example strip_both_ends : strip ("  " ++ String "009"%char "a b " ++ nl) = "a b".
Proof. reflexivity. Qed.

Example parse_listing_skips_blank_lines :
  parse_listing ("sw-description" ++ nl ++ "  " ++ nl ++ " rootfs.img " ++ nl)
  = ["sw-description"; "rootfs.img"].
Proof. reflexivity. Qed.

Example feed_two : feed ["a"; "b"] = "a" ++ nl ++ "b" ++ nl.
Proof. reflexivity. Qed.

Example read_lines_drops_open_line : read_lines ("a" ++ nl ++ "b") = ["a"].
Proof. reflexivity. Qed.

Example corrected_order_removes_one :
  corrected_order ["a"; "sw-description"; "b"; "sw-description"]
  = ["sw-description"; "a"; "b"; "sw-description"].
Proof. reflexivity. Qed.

Example corrected_order_inserts :
  corrected_order ["a"; "b"] = ["sw-description"; "a"; "b"].
Proof. reflexivity. Qed.

Lemma append_cons (c : ascii) (s t : string) : String c s ++ t = String c (s ++ t).
Proof. reflexivity. Qed.

Lemma append_nil_r (s : string) : s ++ EmptyString = s.
Proof. induction s as [|c s IH]; [done | by rewrite append_cons, IH]. Qed.

Lemma append_assoc (a b c : string) : (a ++ b) ++ c = a ++ (b ++ c).
Proof. induction a as [|x a IH]; [done | by rewrite !append_cons, IH]. Qed.

Lemma chars_app (s t : string) : chars (s ++ t) = (chars s ++ chars t)%list.
Proof. induction s as [|c s IH]; [done | rewrite append_cons; simpl; by rewrite IH]. Qed.

Lemma chars_lstrip (s : string) (c : ascii) : c ∈ chars (lstrip s) -> c ∈ chars s.
Proof.
  induction s as [|a s IH]; simpl; [done |].
  destruct (is_space a); [| done].
  intros H. apply elem_of_cons. right. by apply IH.
Qed.

Lemma chars_rstrip (s : string) (c : ascii) : c ∈ chars (rstrip s) -> c ∈ chars s.
Proof.
  revert c. induction s as [|a s IH]; simpl; intros c; [done |].
  destruct (rstrip s) as [|b r] eqn:E.
  - destruct (is_space a); simpl; [by intros H%elem_of_nil |].
    intros H%elem_of_cons. destruct H as [-> | H%elem_of_nil]; [| done].
    apply elem_of_cons. by left.
  - simpl. intros H%elem_of_cons. apply elem_of_cons.
    destruct H as [-> | H]; [by left | right]. by apply IH.
Qed.

Lemma chars_strip (s : string) (c : ascii) : c ∈ chars (strip s) -> c ∈ chars s.
Proof. intros H. by apply chars_lstrip, chars_rstrip. Qed.

Lemma splitlines_one_line_aux (s : string) :
  Forall one_line (splitlines s) /\ forall c, Forall one_line (splitlines (String c s)).
Proof.
  induction s as [|c' s [IH1 IH2]].
  - split; [constructor |]. intros c. simpl.
    destruct (is_linebreak c) eqn:Hc.
    + repeat constructor. by intros ? ?%elem_of_nil.
    + repeat constructor. intros a Ha%elem_of_cons.
      destruct Ha as [-> | Ha%elem_of_nil]; done.
  - split; [apply IH2 |]. intros c.
    change (splitlines (String c (String c' s))) with
      (if is_linebreak c then
         EmptyString ::
           (if (Ascii.eqb c "013"%char && Ascii.eqb c' "010"%char)%bool
            then splitlines s else splitlines (String c' s))
       else match splitlines (String c' s) with
            | [] => [String c EmptyString]
            | l :: ls => String c l :: ls
            end).
    destruct (is_linebreak c) eqn:Hc.
    + constructor; [by intros ? ?%elem_of_nil |].
      destruct (_ && _)%bool; [apply IH1 | apply IH2].
    + specialize (IH2 c'). destruct (splitlines (String c' s)) as [|l ls].
      * repeat constructor. intros a Ha%elem_of_cons.
        destruct Ha as [-> | Ha%elem_of_nil]; done.
      * inversion IH2 as [|? ? Hl Hls]; subst. constructor; [| done].
        intros a Ha%elem_of_cons. destruct Ha as [-> | Ha]; [done | by apply Hl].
Qed.

Lemma splitlines_one_line (s : string) : Forall one_line (splitlines s).
Proof. apply splitlines_one_line_aux. Qed.

(** Every name of a parsed listing is a non-empty single line. *)
Lemma parse_listing_one_line (stdout : string) :
  Forall (fun fname => one_line fname /\ fname <> EmptyString) (parse_listing stdout).
Proof.
  unfold parse_listing. apply Forall_fmap, Forall_forall.
  intros line [Hne Hin]%list_elem_of_filter. simpl. split.
  - intros c Hc%chars_strip.
    pose proof (splitlines_one_line stdout) as Hall.
    rewrite Forall_forall in Hall. by apply (Hall line).
  - intros E. by rewrite E in Hne.
Qed.

Lemma read_lines_line (fname rest : string) :
  one_line fname -> read_lines (fname ++ nl ++ rest) = fname :: read_lines rest.
Proof.
  induction fname as [|c s IH]; intros Hs; [done |].
  change (read_lines (String c s ++ nl ++ rest)) with
    (if Ascii.eqb c "010"%char then EmptyString :: read_lines (s ++ nl ++ rest)
     else match read_lines (s ++ nl ++ rest) with
          | [] => []
          | l :: ls => String c l :: ls
          end).
  destruct (Ascii.eqb_spec c "010"%char) as [-> | _].
  - assert (is_linebreak "010"%char = false) as Hnl; [| discriminate Hnl].
    apply Hs. simpl. apply elem_of_cons. by left.
  - rewrite IH; [done |]. intros a Ha. apply Hs. simpl. apply elem_of_cons. by right.
Qed.

(** The archive command reads back exactly the names it is sent. *)
Lemma read_lines_feed (file_list : list string) :
  file_list <> [] -> Forall one_line file_list ->
  read_lines (feed file_list) = file_list.
Proof.
  unfold feed. induction file_list as [|fname rest IH]; [done |].
  intros _ Hall. inversion Hall as [|? ? Hf Hrest]; subst.
  destruct rest as [|g rest].
  - change (String.concat nl [fname]) with fname.
    rewrite <- (append_nil_r (fname ++ nl)), append_assoc.
    by rewrite read_lines_line.
  - change (String.concat nl (fname :: g :: rest))
      with (fname ++ nl ++ String.concat nl (g :: rest))%string.
    rewrite !append_assoc, read_lines_line by done.
    f_equal. by apply IH.
Qed.

Lemma remove_first_split (fname : string) (l : list string) :
  fname ∈ l ->
  exists l1 l2, l = (l1 ++ fname :: l2)%list /\ (fname ∉ l1)
                /\ remove_first fname l = (l1 ++ l2)%list.
Proof.
  induction l as [|x l IH]; [by intros ?%elem_of_nil |].
  intros Hin. simpl. destruct (String.eqb_spec x fname) as [-> | Hne].
  - exists [], l. split_and!; [done | apply not_elem_of_nil | done].
  - apply elem_of_cons in Hin as [-> | Hin]; [done |].
    destruct (IH Hin) as (l1 & l2 & -> & Hnot & ->).
    exists (x :: l1), l2. split_and!; [done | | done].
    rewrite not_elem_of_cons. split; [congruence | done].
Qed.

Lemma control_is_first_true (order : list string) :
  control_is_first order = true <-> head order = Some sw_description.
Proof.
  destruct order as [|x l]; simpl; [split; discriminate |].
  destruct (String.eqb_spec x sw_description) as [-> | Hne]; split; try done.
  intros [=]. done.
Qed.

(** ** Running the monad *)

Lemma add_log_nil (w : World) : add_log w [] = w.
Proof. destruct w. unfold add_log. simpl. by rewrite app_nil_r. Qed.

Lemma add_log_app (w : World) (a b : list string) :
  add_log (add_log w a) b = add_log w (a ++ b).
Proof. unfold add_log. simpl. by rewrite app_assoc. Qed.

Lemma bind_ret_run {A B} (m : M A) (k : A -> M B) w a w' :
  m w = (Ret a, w') -> bind m k w = k a w'.
Proof. unfold bind. by intros ->. Qed.

Lemma bind_raise_run {A B} (m : M A) (k : A -> M B) w e w' :
  m w = (Raise e, w') -> bind m k w = (Raise e, w').
Proof. unfold bind. by intros ->. Qed.

Lemma bind_log {B} (message : string) (k : unit -> M B) w :
  bind (log message) k w = k tt (add_log w [message]).
Proof. reflexivity. Qed.

Lemma log_run (message : string) w : log message w = (Ret tt, add_log w [message]).
Proof. reflexivity. Qed.

Lemma bind_ret {A B} (a : A) (k : A -> M B) w : bind (ret a) k w = k a w.
Proof. reflexivity. Qed.

Lemma bind_inv {A B} (m : M A) (k : A -> M B) w b w' :
  bind m k w = (Ret b, w') ->
  exists a w1, m w = (Ret a, w1) /\ k a w1 = (Ret b, w').
Proof.
  unfold bind. destruct (m w) as [[a | e] w1]; [| discriminate].
  intros H. by exists a, w1.
Qed.

Lemma log_each_run (l : list string) w : log_each l w = (Ret tt, add_log w l).
Proof.
  revert w. induction l as [|m l IH]; intros w; simpl.
  - unfold ret. by rewrite add_log_nil.
  - by rewrite bind_log, IH, add_log_app.
Qed.

Lemma log_names_run (names : list string) w :
  log_names names w = (Ret tt, add_log w (names_lines names)).
Proof.
  unfold log_names, names_lines.
  rewrite (bind_ret_run _ _ _ _ _ (log_each_run _ _)).
  destruct (10 <? _); unfold when.
  - by rewrite log_run, add_log_app.
  - unfold ret. by rewrite app_nil_r.
Qed.

Lemma on_disk_cons (P : Platform) f dir fname rest :
  on_disk P f dir (fname :: rest) =
    if is_file_in f (path_join P dir fname)
    then fname :: on_disk P f dir rest else on_disk P f dir rest.
Proof.
  unfold on_disk. rewrite filter_cons.
  destruct (is_file_in f (path_join P dir fname)); by case_decide.
Qed.

Lemma missing_cons (P : Platform) f dir fname rest :
  missing P f dir (fname :: rest) =
    if is_file_in f (path_join P dir fname)
    then missing P f dir rest else fname :: missing P f dir rest.
Proof.
  unfold missing. rewrite filter_cons.
  destruct (is_file_in f (path_join P dir fname)); by case_decide.
Qed.

Lemma verify_files_run (P : Platform) (dir : string) (order acc : list string) w :
  verify_files P dir order acc w =
    (Ret (acc ++ on_disk P (fs w) dir order)%list,
     add_log w (skip_warning <$> missing P (fs w) dir order)).
Proof.
  revert acc w. induction order as [|fname rest IH]; intros acc w.
  - simpl. unfold ret, on_disk, missing. simpl. by rewrite app_nil_r, add_log_nil.
  - simpl. unfold bind at 1, is_file.
    rewrite on_disk_cons, missing_cons.
    destruct (is_file_in (fs w) (path_join P dir fname)) eqn:E.
    + rewrite IH. by rewrite <- app_assoc.
    + rewrite bind_log, IH. simpl. by rewrite add_log_app.
Qed.

(** ** Relations that every step of [recompress_swu] respects

    [R] relates the world before a step to the world after it.  The steps
    that touch the file system or start a process are assumptions on [R], at
    the paths where [recompress_swu] uses them. *)

Section Frame.

Variable P : Platform.
Variable R : World -> World -> Prop.
Hypothesis R_refl : forall w, R w w.
Hypothesis R_trans : forall w1 w2 w3, R w1 w2 -> R w2 w3 -> R w1 w3.

Local Abbreviation respects := (respects R).

Variables (scratch out : string).

Hypothesis R_log : forall message, respects (log message).
Hypothesis R_list : forall stdin, respects (start P cpio_list_argv None stdin).
Hypothesis R_extract :
  forall stdin, respects (start P cpio_extract_argv (Some scratch) stdin).
Hypothesis R_create :
  forall stdin, respects (start P cpio_create_argv (Some scratch) stdin).
Hypothesis R_mkdir : respects (mkdir_exist_ok P scratch).
Hypothesis R_open_wb : respects (open_wb P out).
Hypothesis R_write : forall data, respects (write_opened out data).
Hypothesis R_rmtree : respects (rmtree P scratch).

Lemma respects_ret {A} (a : A) : respects (ret a).
Proof. intros w. apply R_refl. Qed.

Lemma respects_raise {A} (e : exn) : respects (@raise A e).
Proof. intros w. apply R_refl. Qed.

Lemma respects_bind {A B} (m : M A) (k : A -> M B) :
  respects m -> (forall a, respects (k a)) -> respects (bind m k).
Proof.
  intros Hm Hk w. unfold bind. specialize (Hm w).
  destruct (m w) as [[a | e] w1]; simpl in *; [| done].
  eapply R_trans; [done | apply Hk].
Qed.

Lemma respects_try {A} (body : M A) (handler : exn -> option (M A)) :
  respects body -> (forall e h, handler e = Some h -> respects h) ->
  respects (try_except body handler).
Proof.
  intros Hb Hh w. unfold try_except. specialize (Hb w).
  destruct (body w) as [[a | e] w1]; simpl in *; [done |].
  destruct (handler e) as [h |] eqn:E; [| done].
  eapply R_trans; [done | by apply (Hh e)].
Qed.

Lemma respects_stat (p : string) : respects (stat P p).
Proof. intros w. unfold stat. destruct (fs w !! p); apply R_refl. Qed.

Lemma respects_is_file (p : string) : respects (is_file p).
Proof. intros w. apply R_refl. Qed.

Lemma respects_open_rb (p : string) : respects (open_rb p).
Proof. intros w. unfold open_rb. repeat case_match; apply R_refl. Qed.

Lemma respects_when (b : bool) (m : M unit) : respects m -> respects (when b m).
Proof. destruct b; [done |]. intros _. apply respects_ret. Qed.

Lemma respects_log_each (l : list string) : respects (log_each l).
Proof.
  induction l as [|m l IH]; [apply respects_ret |].
  apply respects_bind; [apply R_log | done].
Qed.

Lemma respects_log_names (names : list string) : respects (log_names names).
Proof.
  apply respects_bind; [apply respects_log_each |].
  intros _. apply respects_when, R_log.
Qed.

Lemma respects_subprocess_run argv cwd stdin :
  respects (start P argv cwd stdin) ->
  respects (subprocess_run P argv cwd stdin).
Proof.
  intros Hin. apply respects_bind; [done |].
  intros [rc so se |]; [| apply respects_raise].
  destruct (rc =? 0); [apply respects_ret | apply respects_raise].
Qed.

Lemma respects_verify_files (order acc : list string) :
  respects (verify_files P scratch order acc).
Proof.
  revert acc. induction order as [|fname rest IH]; intros acc; simpl.
  - apply respects_ret.
  - apply respects_bind; [apply respects_is_file |].
    intros [|]; [apply IH |].
    apply respects_bind; [apply R_log | intros _; apply IH].
Qed.

Ltac respect :=
  repeat first
    [ apply R_log | apply respects_ret | apply respects_raise
    | apply respects_stat | apply respects_is_file | apply respects_open_rb
    | apply respects_log_names | apply respects_verify_files
    | apply R_mkdir | apply R_open_wb | apply R_write | apply R_rmtree
    | apply respects_when
    | apply R_list | apply R_extract | apply R_create
    | apply respects_subprocess_run
    | apply respects_bind; [| intros ?]
    | apply respects_try; [| intros ? ? [= <-]]
    | match goal with
      | |- respects (if ?b then _ else _) => destruct b
      | |- respects (match ?x with _ => _ end) => destruct x
      end ].

Lemma respects_except_CPE {A} (body : M A) (h : exn -> M A) :
  respects body -> (forall e, respects (h e)) ->
  respects (try_except body (except_CalledProcessError h)).
Proof.
  intros Hb Hh. apply respects_try; [done |].
  intros [] h' [=]; subst. apply Hh.
Qed.

Lemma respects_except_OSError {A} (body : M A) (h : exn -> M A) :
  respects body -> (forall e, respects (h e)) ->
  respects (try_except body (except_OSError h)).
Proof.
  intros Hb Hh. apply respects_try; [done |].
  intros [] h' [=]; subst. apply Hh.
Qed.

Lemma respects_extract_swu (swu_file : string) :
  respects (extract_swu P swu_file scratch).
Proof.
  unfold extract_swu.
  apply respects_bind; [apply R_log | intros _].
  apply respects_bind.
  - apply respects_except_CPE; [| intros e]; respect.
  - intros file_order. apply respects_except_CPE; [| intros e]; respect.
Qed.

Lemma respects_build_archive (size : Z) (file_list : list string) :
  respects (build_archive P scratch size out file_list).
Proof.
  unfold build_archive, popen_communicate, except_Exception.
  destruct file_list; respect.
Qed.

Lemma respects_recompress_from (size : Z) (listed : list string) :
  respects (recompress_from P scratch size out listed).
Proof.
  unfold recompress_from.
  apply respects_bind; [respect |]. intros order.
  apply respects_bind; [respect |]. intros file_list.
  apply respects_build_archive.
Qed.

Lemma respects_recompress_swu (self : SimpleDeltaGen) (orig : string) :
  scratch = scratch_dir P self orig ->
  respects (recompress_swu P self orig out).
Proof.
  intros Hs. unfold recompress_swu, recompress_extract. rewrite <- Hs.
  apply respects_bind.
  - repeat (apply respects_bind; [apply R_log | intros _]).
    apply respects_bind; [apply respects_except_OSError; [| intros e]; respect |].
    intros size. apply respects_bind; [apply R_mkdir | intros _].
    apply respects_bind; [apply respects_extract_swu | intros order].
    apply respects_ret.
  - intros [size [listed |]]; cbn [fst snd].
    + apply respects_recompress_from.
    + respect.
Qed.

End Frame.

(** ** What [recompress_swu] does *)

Section Recompress.

Variable P : Platform.

Lemma popen_communicate_run (argv : list string) (cwd out input : string) w :
  popen_communicate P argv cwd out input w =
    match create_or_truncate P (fs w) out with
    | None => (Raise (OSError out), w)
    | Some f1 =>
        match spawn P argv (Some cwd) (Some input) f1 with
        | (NotStarted, f2) =>
            (Raise (OSError (hd EmptyString argv)),
             mkWorld f2 (log_lines w) (trace w ++ [Spawn argv (Some cwd) (Some input)]))
        | (Exited rc stdout stderr, f2) =>
            (Ret (rc, stderr),
             mkWorld (<[out := File stdout]> f2) (log_lines w)
                     (trace w ++ [Spawn argv (Some cwd) (Some input)]))
        end
    end.
Proof.
  unfold popen_communicate, bind, open_wb, start, set_fs, raise, write_opened, ret.
  destruct (create_or_truncate P (fs w) out) as [f1 |]; [| done]. simpl.
  destruct (spawn P argv (Some cwd) (Some input) f1) as [[rc so se |] f2]; done.
Qed.

(** [build_archive] never raises; up to the lines it logs, it is
    [build_outcome]. *)
Lemma build_archive_run (temp : string) (size : Z) (out : string)
    (file_list : list string) w :
  file_list <> [] ->
  exists l,
    build_archive P temp size out file_list w =
      let '(ok, f, started) := build_outcome P temp out file_list (fs w) in
      (Ret ok, mkWorld f (log_lines w ++ l) (trace w ++ started)).
Proof.
  intros Hne. unfold build_archive, build_outcome.
  destruct file_list as [|fname rest]; [done |].
  set (file_list := fname :: rest). clearbody file_list.
  rewrite bind_log, (bind_ret_run _ _ _ _ _ (log_names_run _ _)), bind_log.
  rewrite !add_log_app.
  unfold try_except, except_Exception. unfold bind at 1.
  rewrite popen_communicate_run. simpl fs.
  destruct (create_or_truncate P (fs w) out) as [f1 |].
  - destruct (spawn P cpio_create_argv (Some temp) (Some (feed file_list)) f1)
      as [[rc so se |] f2].
    + cbn [fst snd]. destruct (rc =? 0); cbn [negb].
      * unfold bind at 1, stat. cbn [fs]. rewrite lookup_insert_eq.
        rewrite !bind_log. unfold when.
        destruct (0 <? size).
        -- rewrite !bind_log. unfold bind, rmtree, ret, set_fs, add_log. cbn.
           eexists. by rewrite <- !app_assoc.
        -- rewrite bind_ret, !bind_log. unfold bind, rmtree, ret, set_fs, add_log. cbn.
           eexists. by rewrite <- !app_assoc.
      * rewrite bind_log. unfold ret, add_log. cbn.
        eexists. by rewrite <- !app_assoc.
    + rewrite bind_log. unfold bind, rmtree, ret, set_fs, add_log. cbn.
      eexists. by rewrite <- !app_assoc.
  - rewrite bind_log. unfold bind, rmtree, ret, set_fs, add_log. cbn.
    rewrite app_nil_r. eexists. by rewrite <- !app_assoc.
Qed.

Lemma recompress_from_run (temp : string) (size : Z) (out : string)
    (listed : list string) w :
  exists l,
    recompress_from P temp size out listed w =
      (let '(ok, f, started) := recompress_outcome P temp out listed (fs w) in
       (Ret ok, mkWorld f (log_lines w ++ l) (trace w ++ started)))
    /\ (control_is_first listed = false -> order_warning ∈ l)
    /\ (forall fname,
          fname ∈ missing P (fs w) temp (effective_order listed) ->
          skip_warning fname ∈ l).
Proof.
  unfold recompress_from, recompress_outcome, effective_order.
  set (order := if control_is_first listed then listed else corrected_order listed).
  assert (exists l0,
    (if negb (control_is_first listed)
     then log order_warning ;;
          log "This may indicate an invalid SWU file." ;; ret (corrected_order listed)
     else ret listed) w = (Ret order, add_log w l0)
    /\ (control_is_first listed = false -> order_warning ∈ l0))
    as (l0 & Hrun & Hwarn).
  { subst order. destruct (control_is_first listed); cbn [negb].
    - exists []. rewrite add_log_nil. by split.
    - eexists. rewrite !bind_log, add_log_app. split; [reflexivity |].
      intros _. set_solver. }
  rewrite (bind_ret_run _ _ _ _ _ Hrun).
  rewrite (bind_ret_run _ _ _ _ _ (verify_files_run _ _ _ _ _)).
  cbn [app]. rewrite add_log_app. cbn [fs add_log].
  set (skipped := missing P (fs w) temp order).
  destruct (on_disk P (fs w) temp order) as [|fname rest] eqn:Hdisk.
  - unfold build_archive. rewrite bind_log, add_log_app. unfold ret, add_log. cbn.
    rewrite app_nil_r. eexists. split; [reflexivity |]. split.
    + intros H. specialize (Hwarn H). set_solver.
    + intros f Hf. apply elem_of_app. left. apply elem_of_app. right.
      by apply list_elem_of_fmap_2.
  - destruct (build_archive_run temp size out (fname :: rest)
                (add_log w (l0 ++ (skip_warning <$> skipped))%list)) as [l1 Hb]; [done |].
    rewrite Hb. cbn [fs add_log log_lines trace].
    destruct (build_outcome P temp out (fname :: rest) (fs w)) as [[ok f] started].
    rewrite <- app_assoc. eexists. split; [reflexivity |]. split.
    + intros H. specialize (Hwarn H). set_solver.
    + intros g Hg. apply elem_of_app. left. apply elem_of_app. right.
      by apply list_elem_of_fmap_2.
Qed.

Lemma recompress_swu_run (self : SimpleDeltaGen) (orig out : string)
    (size : Z) (listed : list string) w0 w :
  recompress_extract P self orig out w0 = (Ret (size, Some listed), w) ->
  recompress_swu P self orig out w0 =
    recompress_from P (scratch_dir P self orig) size out listed w.
Proof. intros H. unfold recompress_swu. by rewrite (bind_ret_run _ _ _ _ _ H). Qed.

Lemma try_except_ret {A} (body : M A) (handler : exn -> option (M A)) w a w1 :
  body w = (Ret a, w1) -> try_except body handler w = (Ret a, w1).
Proof. unfold try_except. by intros ->. Qed.

Lemma try_except_raise {A} (body : M A) (handler : exn -> option (M A)) w e w1 h :
  body w = (Raise e, w1) -> handler e = Some h -> try_except body handler w = h w1.
Proof. unfold try_except. by intros -> ->. Qed.

Lemma open_rb_run (p : string) w (data : string) :
  fs w !! p = Some (File data) -> open_rb p w = (Ret data, w).
Proof. unfold open_rb. by intros ->. Qed.

Lemma subprocess_run_ok (argv : list string) (cwd stdin : option string) w
    (out err : string) (f : gmap string Node) :
  spawn P argv cwd stdin (fs w) = (Exited 0 out err, f) ->
  subprocess_run P argv cwd stdin w =
    (Ret (out, err), mkWorld f (log_lines w) (trace w ++ [Spawn argv cwd stdin])).
Proof. unfold subprocess_run, bind, start. by intros ->. Qed.

Lemma subprocess_run_failed (argv : list string) (cwd stdin : option string) w
    (rc : Z) (out err : string) (f : gmap string Node) :
  spawn P argv cwd stdin (fs w) = (Exited rc out err, f) -> rc <> 0 ->
  subprocess_run P argv cwd stdin w =
    (Raise (CalledProcessError argv rc err),
     mkWorld f (log_lines w) (trace w ++ [Spawn argv cwd stdin])).
Proof.
  unfold subprocess_run, bind, start. intros -> Hrc%Z.eqb_neq. by rewrite Hrc.
Qed.

Lemma try_except_inv {A} (body : M A) (handler : exn -> option (M A)) w a w' :
  try_except body handler w = (Ret a, w') ->
  body w = (Ret a, w')
  \/ exists e w1 h, body w = (Raise e, w1) /\ handler e = Some h /\ h w1 = (Ret a, w').
Proof.
  unfold try_except. destruct (body w) as [[b | e] w1]; [by left |].
  destruct (handler e) as [h |] eqn:E; [| discriminate].
  intros H. right. by exists e, w1, h.
Qed.

(** A member order that [extract_swu] returns is a parsed listing, and it is
    not empty. *)
Lemma extract_swu_some (swu_file extract_dir : string) (listed : list string) w w' :
  extract_swu P swu_file extract_dir w = (Ret (Some listed), w') ->
  listed <> [] /\ exists stdout, listed = parse_listing stdout.
Proof.
  unfold extract_swu. rewrite bind_log.
  intros (file_order & w1 & Hlist & Hextract)%bind_inv.
  assert (file_order = listed /\ listed <> []) as [-> Hne].
  { apply try_except_inv in Hextract as [Hb | (e & w2 & h & _ & Hh & Hrun)].
    - apply bind_inv in Hb as (? & ? & _ & Hb).
      apply bind_inv in Hb as (? & ? & _ & Hb).
      rewrite bind_log in Hb. unfold ret in Hb.
      destruct file_order; [discriminate |]. by simplify_eq.
    - unfold except_CalledProcessError in Hh. destruct e; [discriminate |].
      by simplify_eq. }
  split; [done |].
  apply try_except_inv in Hlist as [Hb | (e & w2 & h & _ & Hh & Hrun)].
  - apply bind_inv in Hb as (? & ? & _ & Hb).
    apply bind_inv in Hb as (result & ? & _ & Hb).
    rewrite bind_log in Hb.
    apply bind_inv in Hb as (? & ? & _ & Hb).
    unfold ret in Hb. simplify_eq. by eexists.
  - unfold except_CalledProcessError in Hh. destruct e; [discriminate |].
    simplify_eq. rewrite bind_log in Hrun. unfold ret in Hrun. by simplify_eq.
Qed.

Lemma recompress_extract_some (self : SimpleDeltaGen) (orig out : string)
    (size : Z) (listed : list string) w0 w :
  recompress_extract P self orig out w0 = (Ret (size, Some listed), w) ->
  listed <> [] /\ Forall one_line listed.
Proof.
  unfold recompress_extract. rewrite !bind_log.
  intros (? & ? & _ & H)%bind_inv.
  apply bind_inv in H as (? & ? & _ & H).
  apply bind_inv in H as (order & ? & Hx & H).
  unfold ret in H. simplify_eq.
  apply extract_swu_some in Hx as [Hne [stdout ->]]. split; [done |].
  eapply Forall_impl; [apply parse_listing_one_line |]. by intros ? [? _].
Qed.

Lemma create_or_truncate_lookup (f f1 : gmap string Node) (p : string) :
  create_or_truncate P f p = Some f1 -> f1 = <[p := File EmptyString]> f.
Proof. unfold create_or_truncate. intros H. repeat case_match; by simplify_eq. Qed.

Lemma on_disk_all (f : gmap string Node) (dir : string) (order : list string) :
  Forall (fun fname => is_file_in f (path_join P dir fname) = true) order ->
  on_disk P f dir order = order.
Proof.
  induction 1 as [|x l Hx Hl IH]; [done |]. by rewrite on_disk_cons, Hx, IH.
Qed.

Lemma remove_tree_lookup (d p : string) (f : gmap string Node) :
  path_within P d p = false -> remove_tree P d f !! p = f !! p.
Proof.
  intros H. unfold remove_tree. destruct (f !! p) as [n |] eqn:E.
  - by apply map_lookup_filter_Some.
  - apply map_lookup_filter_None. left. done.
Qed.

Lemma recompress_swu_outcome (self : SimpleDeltaGen) (orig out : string)
    (size : Z) (listed : list string) w0 w :
  recompress_extract P self orig out w0 = (Ret (size, Some listed), w) ->
  exists l,
    recompress_swu P self orig out w0 =
      (let '(ok, f, started) :=
         recompress_outcome P (scratch_dir P self orig) out listed (fs w) in
       (Ret ok, mkWorld f (log_lines w ++ l) (trace w ++ started)))
    /\ (control_is_first listed = false -> order_warning ∈ l)
    /\ (forall fname,
          fname ∈ missing P (fs w) (scratch_dir P self orig) (effective_order listed) ->
          skip_warning fname ∈ l).
Proof.
  intros H. rewrite (recompress_swu_run _ _ _ _ _ _ _ H).
  apply recompress_from_run.
Qed.

Lemma logged_between_intro (w w' : World) (l : list string) (message : string) :
  log_lines w' = (log_lines w ++ l)%list -> message ∈ l ->
  logged_between w w' message.
Proof.
  intros Hl (l1 & l2 & ->)%list_elem_of_split. exists l1, l2. done.
Qed.

Lemma not_on_disk (f : gmap string Node) (dir fname : string) (order : list string) :
  is_file_in f (path_join P dir fname) = false -> fname ∉ on_disk P f dir order.
Proof.
  intros H Hin. unfold on_disk in Hin. apply list_elem_of_filter in Hin as [Hf _].
  congruence.
Qed.

Lemma in_missing (f : gmap string Node) (dir fname : string) (order : list string) :
  fname ∈ order -> is_file_in f (path_join P dir fname) = false ->
  fname ∈ missing P f dir order.
Proof.
  intros Hin H. unfold missing. apply list_elem_of_filter. split; [| done].
  by rewrite H.
Qed.

Lemma on_disk_none (f : gmap string Node) (dir : string) (order : list string) :
  (forall fname, fname ∈ order -> is_file_in f (path_join P dir fname) = false) ->
  on_disk P f dir order = [].
Proof.
  induction order as [|x rest IH]; intros H; [done |].
  rewrite on_disk_cons, (H x) by (apply elem_of_cons; by left).
  apply IH. intros fname Hin. apply H, elem_of_cons. by right.
Qed.

Lemma elem_of_remove_first (fname x : string) (l : list string) :
  x ∈ remove_first fname l -> x ∈ l.
Proof.
  induction l as [|y rest IH]; [done |]. simpl.
  destruct (String.eqb y fname); rewrite !elem_of_cons; [by right |].
  intros [-> | Hin]; [by left | right; by apply IH].
Qed.

(** The order that is verified holds the control member and listed names. *)
Lemma elem_of_effective_order (fname : string) (listed : list string) :
  fname ∈ effective_order listed -> fname = sw_description \/ fname ∈ listed.
Proof.
  unfold effective_order, corrected_order.
  destruct (control_is_first listed); [by right |].
  rewrite elem_of_cons. intros [-> | Hin]; [by left | right].
  destruct (contains sw_description listed); [| done].
  by eapply elem_of_remove_first.
Qed.

Lemma build_outcome_started (temp out : string) (file_list : list string)
    (f : gmap string Node) :
  (build_outcome P temp out file_list f).2 = []
  \/ (build_outcome P temp out file_list f).2 = [build_event temp file_list].
Proof.
  unfold build_outcome. repeat case_match; simpl; auto.
Qed.

(** The only process that [recompress_swu] starts after the extraction is
    the archive construction, on the verified list. *)
Lemma recompress_swu_trace (self : SimpleDeltaGen) (orig out : string)
    (size : Z) (listed : list string) w0 w :
  recompress_extract P self orig out w0 = (Ret (size, Some listed), w) ->
  trace (recompress_swu P self orig out w0).2 = trace w
  \/ trace (recompress_swu P self orig out w0).2
     = (trace w ++ [build_event (scratch_dir P self orig)
                      (on_disk P (fs w) (scratch_dir P self orig)
                         (effective_order listed))])%list.
Proof.
  intros Hx.
  destruct (recompress_swu_outcome _ _ _ _ _ _ _ Hx) as (l & Hrun & _ & _).
  rewrite Hrun. unfold recompress_outcome.
  destruct (on_disk P (fs w) (scratch_dir P self orig) (effective_order listed))
    as [|x rest] eqn:E.
  - left. cbn. by rewrite app_nil_r.
  - pose proof (build_outcome_started (scratch_dir P self orig) out (x :: rest) (fs w))
      as Hst.
    destruct (build_outcome _ _ _ _ _) as [[ok f] started]. cbn in *.
    destruct Hst as [-> | ->]; [left; by rewrite app_nil_r | by right].
Qed.

(** *** The two stages of [extract_swu] *)

Local Abbreviation extraction swu_file extract_dir file_order :=
  (try_except
     (f ← open_rb swu_file;
      subprocess_run P cpio_extract_argv (Some extract_dir) (Some f) ;;
      log ("Extracted " ++ path_name P swu_file ++ " successfully") ;;
      ret (match file_order with [] => None | _ => Some file_order end))
     (except_CalledProcessError (fun e =>
        log ("Failed to extract " ++ path_name P swu_file ++ ": " ++ str_exn P e) ;;
        ret None))).

Lemma subprocess_run_unstarted (argv : list string) (cwd stdin : option string) w
    (f : gmap string Node) :
  spawn P argv cwd stdin (fs w) = (NotStarted, f) ->
  subprocess_run P argv cwd stdin w =
    (Raise (OSError (hd EmptyString argv)),
     mkWorld f (log_lines w) (trace w ++ [Spawn argv cwd stdin])).
Proof. unfold subprocess_run, bind, start. by intros ->. Qed.

Lemma try_except_pass {A} (body : M A) (handler : exn -> option (M A)) w e w1 :
  body w = (Raise e, w1) -> handler e = None ->
  try_except body handler w = (Raise e, w1).
Proof. unfold try_except. by intros -> ->. Qed.

Lemma open_rb_unreadable (p : string) w :
  (forall data, fs w !! p <> Some (File data)) ->
  open_rb p w = (Raise (OSError p), w).
Proof.
  unfold open_rb. destruct (fs w !! p) as [[data | |] |]; try done.
  intros H. by destruct (H data).
Qed.

(** The listing stage, when the archive can be read and [cpio -it] exits. *)
Lemma extract_swu_listing (swu_file extract_dir : string) w
    (data : string) (rc : Z) (out err : string) (f1 : gmap string Node) :
  fs w !! swu_file = Some (File data) ->
  spawn P cpio_list_argv None (Some data) (fs w) = (Exited rc out err, f1) ->
  exists l0,
    extract_swu P swu_file extract_dir w
    = extraction swu_file extract_dir (if rc =? 0 then parse_listing out else [])
        (mkWorld f1 (log_lines w ++ l0)
                 (trace w ++ [Spawn cpio_list_argv None (Some data)]))
    /\ (rc <> 0 ->
        listing_warning P swu_file (CalledProcessError cpio_list_argv rc err) ∈ l0).
Proof.
  intros Hfile Hlist. unfold extract_swu. rewrite bind_log.
  set (w1 := add_log w _).
  destruct (Z.eqb_spec rc 0) as [-> | Hrc].
  - erewrite bind_ret_run; cycle 1.
    { eapply try_except_ret.
      erewrite bind_ret_run by (by apply open_rb_run).
      erewrite bind_ret_run by (eapply subprocess_run_ok; apply Hlist).
      rewrite bind_log.
      erewrite bind_ret_run by apply log_names_run.
      reflexivity. }
    cbn [fst]. rewrite add_log_app. subst w1. unfold add_log. cbn [fs log_lines trace].
    rewrite <- app_assoc. eexists. split; [reflexivity | done].
  - erewrite bind_ret_run; cycle 1.
    { etrans.
      { eapply try_except_raise.
        - erewrite bind_ret_run by (by apply open_rb_run).
          eapply bind_raise_run, subprocess_run_failed; [apply Hlist | done].
        - reflexivity. }
      cbv beta. rewrite bind_log. reflexivity. }
    subst w1. unfold add_log. cbn [fs log_lines trace].
    rewrite <- app_assoc. eexists. split; [reflexivity |].
    intros _. apply elem_of_app. right. by apply list_elem_of_singleton.
Qed.

(** The extraction stage, when the archive can be read and [cpio -idmv]
    exits. *)
Lemma extraction_exited (swu_file extract_dir : string) (file_order : list string) w
    (data : string) (rc : Z) (out err : string) (f2 : gmap string Node) :
  fs w !! swu_file = Some (File data) ->
  spawn P cpio_extract_argv (Some extract_dir) (Some data) (fs w)
    = (Exited rc out err, f2) ->
  exists l1,
    extraction swu_file extract_dir file_order w
    = (Ret (if rc =? 0
            then match file_order with [] => None | _ => Some file_order end
            else None),
       mkWorld f2 (log_lines w ++ l1)
               (trace w ++ [Spawn cpio_extract_argv (Some extract_dir) (Some data)]))
    /\ (rc <> 0 ->
        ("Failed to extract " ++ path_name P swu_file ++ ": "
         ++ str_exn P (CalledProcessError cpio_extract_argv rc err)) ∈ l1).
Proof.
  intros Hfile Hextract.
  assert (open_rb swu_file w = (Ret data, w)) as Hopen by by apply open_rb_run.
  destruct (Z.eqb_spec rc 0) as [-> | Hrc].
  - erewrite try_except_ret; cycle 1.
    { rewrite (bind_ret_run _ _ _ _ _ Hopen).
      erewrite bind_ret_run by (eapply subprocess_run_ok; apply Hextract).
      rewrite bind_log. reflexivity. }
    unfold add_log. cbn [fs log_lines trace].
    eexists. split; [reflexivity | done].
  - erewrite try_except_raise; cycle 1.
    { rewrite (bind_ret_run _ _ _ _ _ Hopen).
      eapply bind_raise_run, subprocess_run_failed; [apply Hextract | done]. }
    { reflexivity. }
    cbv beta. rewrite bind_log. unfold ret, add_log. cbn [fs log_lines trace].
    eexists. split; [reflexivity |].
    intros _. by apply list_elem_of_singleton.
Qed.

(** [extract_swu] when the archive can be read and both processes exit. *)
Lemma extract_swu_exited (swu_file extract_dir : string) w
    (data data1 : string) (rc rc2 : Z) (out err out2 err2 : string)
    (f1 f2 : gmap string Node) :
  fs w !! swu_file = Some (File data) ->
  spawn P cpio_list_argv None (Some data) (fs w) = (Exited rc out err, f1) ->
  f1 !! swu_file = Some (File data1) ->
  spawn P cpio_extract_argv (Some extract_dir) (Some data1) f1
    = (Exited rc2 out2 err2, f2) ->
  exists l,
    extract_swu P swu_file extract_dir w
    = (Ret (if (rc =? 0) && (rc2 =? 0)
            then match parse_listing out with
                 | [] => None
                 | _ => Some (parse_listing out)
                 end
            else None),
       mkWorld f2 (log_lines w ++ l)
               (trace w ++ [Spawn cpio_list_argv None (Some data);
                            Spawn cpio_extract_argv (Some extract_dir) (Some data1)]))
    /\ (rc <> 0 ->
        listing_warning P swu_file (CalledProcessError cpio_list_argv rc err) ∈ l)
    /\ (rc2 <> 0 ->
        ("Failed to extract " ++ path_name P swu_file ++ ": "
         ++ str_exn P (CalledProcessError cpio_extract_argv rc2 err2)) ∈ l).
Proof.
  intros Hfile Hlist Hfile1 Hextract.
  destruct (extract_swu_listing swu_file extract_dir w _ _ _ _ _ Hfile Hlist)
    as (l0 & -> & Hwarn).
  set (w2 := mkWorld f1 _ _).
  destruct (extraction_exited swu_file extract_dir
              (if rc =? 0 then parse_listing out else []) w2 _ _ _ _ _
              Hfile1 Hextract) as (l1 & -> & Hfail).
  subst w2. cbn [fs log_lines trace]. rewrite <- !app_assoc. cbn [app].
  exists (l0 ++ l1)%list. split_and!.
  - f_equal. destruct (rc =? 0), (rc2 =? 0); done.
  - intros H. apply elem_of_app. left. by apply Hwarn.
  - intros H. apply elem_of_app. right. by apply Hfail.
Qed.

(** When [extract_swu] returns, the archive was read twice and both
    processes were started and exited. *)
Lemma extract_swu_returns (swu_file extract_dir : string) w
    (r : option (list string)) w' :
  extract_swu P swu_file extract_dir w = (Ret r, w') ->
  exists data rc out err f1 data1 rc2 out2 err2 f2,
    fs w !! swu_file = Some (File data)
    /\ spawn P cpio_list_argv None (Some data) (fs w) = (Exited rc out err, f1)
    /\ f1 !! swu_file = Some (File data1)
    /\ spawn P cpio_extract_argv (Some extract_dir) (Some data1) f1
       = (Exited rc2 out2 err2, f2).
Proof.
  intros Hrun.
  destruct (fs w !! swu_file) as [[data | |] |] eqn:Hfile.
  2-4: exfalso; revert Hrun; unfold extract_swu; rewrite bind_log;
       erewrite bind_raise_run; [discriminate |];
       eapply try_except_pass;
       [apply bind_raise_run, open_rb_unreadable; cbn [fs add_log]; congruence
       | reflexivity].
  destruct (spawn P cpio_list_argv None (Some data) (fs w))
    as [[rc out err |] f1] eqn:Hlist.
  2:{ exfalso. revert Hrun. unfold extract_swu. rewrite bind_log.
      erewrite bind_raise_run; [discriminate |].
      eapply try_except_pass.
      { erewrite bind_ret_run by (by apply open_rb_run).
        by apply bind_raise_run, subprocess_run_unstarted. }
      reflexivity. }
  destruct (extract_swu_listing swu_file extract_dir w _ _ _ _ _ Hfile Hlist)
    as (l0 & Heq & _).
  rewrite Heq in Hrun. clear Heq.
  set (w2 := mkWorld f1 _ _) in Hrun.
  destruct (f1 !! swu_file) as [[data1 | |] |] eqn:Hfile1.
  2-4: exfalso; revert Hrun; erewrite try_except_pass;
       [discriminate
       | apply bind_raise_run, open_rb_unreadable; subst w2; cbn [fs];
         congruence
       | reflexivity].
  destruct (spawn P cpio_extract_argv (Some extract_dir) (Some data1) f1)
    as [[rc2 out2 err2 |] f2] eqn:Hextract.
  2:{ exfalso. revert Hrun. erewrite try_except_pass; [discriminate | |].
      { erewrite bind_ret_run by (by apply open_rb_run).
        erewrite bind_raise_run; [reflexivity |].
        by apply subprocess_run_unstarted. }
      reflexivity. }
  by exists data, rc, out, err, f1, data1, rc2, out2, err2, f2.
Qed.

(** [recompress_extract] is [recompress_prepare] followed by
    [extract_swu] in the scratch directory. *)
Lemma recompress_extract_prepared (self : SimpleDeltaGen) (orig out : string)
    (size : Z) w0 w :
  recompress_prepare P self orig out w0 = (Ret size, w) ->
  recompress_extract P self orig out w0
  = bind (extract_swu P orig (scratch_dir P self orig))
         (fun order => ret (size, order)) w.
Proof.
  unfold recompress_prepare, recompress_extract. rewrite !bind_log.
  intros (size' & w1 & Hstat & H)%bind_inv.
  apply bind_inv in H as ([] & w2 & Hmk & H). unfold ret in H. simplify_eq.
  rewrite (bind_ret_run _ _ _ _ _ Hstat).
  by rewrite (bind_ret_run _ _ _ _ _ Hmk).
Qed.

End Recompress.

(** ** The repackager *)

Section Repackager.

Variable P : Platform.
Variable self : SimpleDeltaGen.
Variables (orig out : string).

Local Abbreviation temp := (scratch_dir P self orig).

(** C2. Control-member invariant.  When the listing does not start with
    [sw-description], the warning is logged, and the archive is built from
    the members on disk of the corrected order.  If the listing holds the
    name elsewhere, the corrected order is the listing with the first
    occurrence of the name removed and the name put at position 0.  If
    the listing does not hold the name and no regular file of that name is in
    the scratch directory, the inserted name is dropped again by the
    verification: the verified list is the raw listing, in its order,
    restricted to the files on disk, and when it is not empty the run goes on
    to build the archive from it; its result is the result of that build. *)
Theorem control_member_invariant (size : Z) (listed : list string) w0 w :
  recompress_extract P self orig out w0 = (Ret (size, Some listed), w) ->
  head listed <> Some sw_description ->
  logged_between w (recompress_swu P self orig out w0).2 order_warning
  /\ (trace (recompress_swu P self orig out w0).2 = trace w
      \/ trace (recompress_swu P self orig out w0).2
         = (trace w ++ [build_event temp
                          (on_disk P (fs w) temp (effective_order listed))])%list)
  /\ (sw_description ∈ listed ->
      head (effective_order listed) = Some sw_description
      /\ exists l1 l2,
           listed = (l1 ++ sw_description :: l2)%list
           /\ (sw_description ∉ l1)
           /\ effective_order listed = (sw_description :: l1 ++ l2)%list)
  /\ (sw_description ∉ listed ->
      is_file_in (fs w) (path_join P temp sw_description) = false ->
      on_disk P (fs w) temp (effective_order listed) = on_disk P (fs w) temp listed
      /\ logged_between w (recompress_swu P self orig out w0).2
           (skip_warning sw_description)
      /\ (on_disk P (fs w) temp listed <> [] ->
          (recompress_swu P self orig out w0).1
            = Ret (build_outcome P temp out (on_disk P (fs w) temp listed) (fs w)).1.1
          /\ fs (recompress_swu P self orig out w0).2
            = (build_outcome P temp out (on_disk P (fs w) temp listed) (fs w)).1.2
          /\ trace (recompress_swu P self orig out w0).2
            = (trace w ++ (build_outcome P temp out
                            (on_disk P (fs w) temp listed) (fs w)).2)%list)).
Proof.
  intros Hx Hfirst.
  destruct (recompress_swu_outcome P _ _ _ _ _ _ _ Hx) as (l & Hrun & Hwarn & Hskip).
  assert (control_is_first listed = false) as Hcf.
  { destruct (control_is_first listed) eqn:E; [| done].
    by apply control_is_first_true in E. }
  assert (log_lines (recompress_swu P self orig out w0).2 = (log_lines w ++ l)%list)
    as Hlog.
  { rewrite Hrun. by destruct (recompress_outcome _ _ _ _ _) as [[? ?] ?]. }
  assert (effective_order listed = corrected_order listed) as Heff.
  { unfold effective_order. by rewrite Hcf. }
  split_and!.
  - eapply logged_between_intro; [done | by apply Hwarn].
  - by eapply recompress_swu_trace.
  - intros Hin. rewrite Heff. unfold corrected_order, contains.
    rewrite bool_decide_eq_true_2 by done. split; [done |].
    destruct (remove_first_split _ _ Hin) as (l1 & l2 & H1 & H2 & H3).
    exists l1, l2. by rewrite H3.
  - intros Hnot Habsent.
    assert (on_disk P (fs w) temp (effective_order listed)
            = on_disk P (fs w) temp listed) as Hsame.
    { rewrite Heff. unfold corrected_order, contains.
      rewrite bool_decide_eq_false_2 by done.
      by rewrite on_disk_cons, Habsent. }
    split_and!; [done | |].
    + eapply logged_between_intro; [done |]. apply Hskip, in_missing; [| done].
      rewrite Heff. unfold corrected_order. set_solver.
    + intros Hne. rewrite Hrun. unfold recompress_outcome. rewrite Hsame.
      destruct (on_disk P (fs w) temp listed) as [|x rest] eqn:E; [done |].
      by destruct (build_outcome _ _ _ _ _) as [[? ?] ?].
Qed.

(** C5. Verified-list filtering.  Every name of the order list that is not a
    regular file in the scratch directory after extraction is left out of the
    verified list and a warning naming it is logged; the only
    archive-construction process that can be started is sent the verified
    list; and when the verified list is empty, [recompress_swu] returns
    failure, starts no process and leaves the file system as it is. *)
Theorem missing_members_skipped (size : Z) (listed : list string) w0 w :
  recompress_extract P self orig out w0 = (Ret (size, Some listed), w) ->
  (forall fname,
      fname ∈ effective_order listed ->
      is_file_in (fs w) (path_join P temp fname) = false ->
      (fname ∉ on_disk P (fs w) temp (effective_order listed))
      /\ logged_between w (recompress_swu P self orig out w0).2 (skip_warning fname))
  /\ (trace (recompress_swu P self orig out w0).2 = trace w
      \/ trace (recompress_swu P self orig out w0).2
         = (trace w ++ [build_event temp
                          (on_disk P (fs w) temp (effective_order listed))])%list)
  /\ (on_disk P (fs w) temp (effective_order listed) = [] ->
      (recompress_swu P self orig out w0).1 = Ret false
      /\ trace (recompress_swu P self orig out w0).2 = trace w
      /\ fs (recompress_swu P self orig out w0).2 = fs w).
Proof.
  intros Hx.
  destruct (recompress_swu_outcome P _ _ _ _ _ _ _ Hx) as (l & Hrun & _ & Hskip).
  assert (log_lines (recompress_swu P self orig out w0).2 = (log_lines w ++ l)%list)
    as Hlog.
  { rewrite Hrun. by destruct (recompress_outcome _ _ _ _ _) as [[? ?] ?]. }
  split_and!.
  - intros fname Hin Hno. split; [by apply not_on_disk |].
    eapply logged_between_intro; [done |]. by apply Hskip, in_missing.
  - by eapply recompress_swu_trace.
  - intros Hempty. rewrite Hrun. unfold recompress_outcome. rewrite Hempty. cbn.
    by rewrite app_nil_r.
Qed.

(** C9. A failed build is not atomic.  When the verified list is not empty,
    the output file can be opened and the archive-construction process exits
    with a non-zero status, [recompress_swu] returns failure; the process was
    started on a file system in which the output path already was an empty
    regular file, and afterwards the output path holds whatever the process
    wrote, possibly nothing. *)
Theorem failed_build_leaves_output (size : Z) (listed : list string) w0 w
    (f1 f2 : gmap string Node) (rc : Z) (stdout stderr : string) :
  recompress_extract P self orig out w0 = (Ret (size, Some listed), w) ->
  on_disk P (fs w) temp (effective_order listed) <> [] ->
  create_or_truncate P (fs w) out = Some f1 ->
  spawn P cpio_create_argv (Some temp)
        (Some (feed (on_disk P (fs w) temp (effective_order listed)))) f1
    = (Exited rc stdout stderr, f2) ->
  rc <> 0 ->
  f1 !! out = Some (File EmptyString)
  /\ (recompress_swu P self orig out w0).1 = Ret false
  /\ fs (recompress_swu P self orig out w0).2 = <[out := File stdout]> f2
  /\ exists_in (fs (recompress_swu P self orig out w0).2) out = true.
Proof.
  intros Hx Hne Hopen Hspawn Hrc.
  destruct (recompress_swu_outcome P _ _ _ _ _ _ _ Hx) as (l & Hrun & _ & _).
  split.
  { rewrite (create_or_truncate_lookup P _ _ _ Hopen). apply lookup_insert_eq. }
  rewrite Hrun. unfold recompress_outcome.
  destruct (on_disk P (fs w) temp (effective_order listed)) as [|x rest] eqn:E; [done |].
  unfold build_outcome. rewrite Hopen, Hspawn.
  apply Z.eqb_neq in Hrc. rewrite Hrc. cbn.
  split_and!; [done | done |]. unfold exists_in. by rewrite lookup_insert_eq.
Qed.


End Repackager.

(** ** The extractor *)

Section Extractor.

Variable P : Platform.

(** C6, as amended.  When [cpio -it] exits with a non-zero status, the
    listing is empty and a warning is logged instead of stopping: the
    extraction process is still started.  But [extract_swu] then returns
    [None], the value it returns when the extraction fails, whatever the exit
    status of the extraction is, also 0.  So a [recompress_swu] that has
    reached its call of [extract_swu] logs that the extraction failed and
    returns [False], without starting another process. *)
Theorem listing_failure_yields_none (swu_file extract_dir : string) w
    (data data1 : string) (rc rc2 : Z) (out err out2 err2 : string)
    (f1 f2 : gmap string Node) :
  fs w !! swu_file = Some (File data) ->
  spawn P cpio_list_argv None (Some data) (fs w) = (Exited rc out err, f1) ->
  rc <> 0 ->
  f1 !! swu_file = Some (File data1) ->
  spawn P cpio_extract_argv (Some extract_dir) (Some data1) f1
    = (Exited rc2 out2 err2, f2) ->
  ((extract_swu P swu_file extract_dir w).1 = Ret None
   /\ logged_between w (extract_swu P swu_file extract_dir w).2
        (listing_warning P swu_file (CalledProcessError cpio_list_argv rc err))
   /\ trace (extract_swu P swu_file extract_dir w).2
      = (trace w ++ [Spawn cpio_list_argv None (Some data);
                     Spawn cpio_extract_argv (Some extract_dir) (Some data1)])%list)
  /\ (forall (self : SimpleDeltaGen) (output_swu : string) (size : Z) w0,
        extract_dir = scratch_dir P self swu_file ->
        recompress_prepare P self swu_file output_swu w0 = (Ret size, w) ->
        (recompress_swu P self swu_file output_swu w0).1 = Ret false
        /\ logged_between w (recompress_swu P self swu_file output_swu w0).2
             (listing_warning P swu_file (CalledProcessError cpio_list_argv rc err))
        /\ logged_between w (recompress_swu P self swu_file output_swu w0).2
             "ERROR: Failed to extract SWU"
        /\ trace (recompress_swu P self swu_file output_swu w0).2
           = (trace w ++ [Spawn cpio_list_argv None (Some data);
                          Spawn cpio_extract_argv (Some extract_dir) (Some data1)])%list).
Proof.
  intros Hfile Hlist Hrc Hfile1 Hextract.
  destruct (extract_swu_exited P swu_file extract_dir w _ _ _ _ _ _ _ _ _ _
              Hfile Hlist Hfile1 Hextract) as (l & Hrun & Hwarn & _).
  assert ((rc =? 0) = false) as Hz by by apply Z.eqb_neq.
  rewrite Hz in Hrun. cbn [andb] in Hrun. specialize (Hwarn Hrc).
  split.
  - rewrite Hrun. cbn [fst snd fs trace]. split_and!; [done | | done].
    by eapply logged_between_intro.
  - intros self output_swu size w0 -> Hprep.
    unfold recompress_swu. erewrite bind_ret_run; cycle 1.
    { rewrite (recompress_extract_prepared P _ _ _ _ _ _ Hprep).
      rewrite (bind_ret_run _ _ _ _ _ Hrun). reflexivity. }
    cbn [snd]. rewrite bind_log. cbn. split_and!; [done | | | done].
    + eapply logged_between_intro; [cbn; by rewrite <- app_assoc |].
      apply elem_of_app. by left.
    + eapply logged_between_intro; [cbn; by rewrite <- app_assoc |].
      apply elem_of_app. right. by apply list_elem_of_singleton.
Qed.

End Extractor.

(** ** The pipeline *)

Section Pipeline.

Variable P : Platform.
Variable self : SimpleDeltaGen.

Lemma keeps_refl (p : string) w : keeps p w w.
Proof. by intros node. Qed.

Lemma keeps_trans (p : string) w1 w2 w3 : keeps p w1 w2 -> keeps p w2 w3 -> keeps p w1 w3.
Proof. intros H1 H2 node Hn. by apply H2, H1. Qed.

(** [recompress_swu] leaves a file alone that is neither its output nor in
    its scratch directory, when the cpio commands do. *)
Lemma recompress_swu_keeps (p orig out : string) :
  out <> p ->
  path_within P (scratch_dir P self orig) p = false ->
  tools_keep P (scratch_dir P self orig) p ->
  respects (keeps p) (recompress_swu P self orig out).
Proof.
  intros Hout Hscratch Htools.
  assert (forall argv cwd stdin,
             (argv, cwd) ∈ [(cpio_list_argv, None);
                            (cpio_extract_argv, Some (scratch_dir P self orig));
                            (cpio_create_argv, Some (scratch_dir P self orig))] ->
             respects (keeps p) (start P argv cwd stdin)) as Hstart.
  { intros argv cwd stdin Hin w node Hn. unfold start.
    pose proof (Htools argv cwd stdin (fs w) node Hin Hn) as Hk.
    by destruct (spawn P argv cwd stdin (fs w)). }
  apply (respects_recompress_swu P (keeps p) (keeps_refl p) (keeps_trans p)
           (scratch_dir P self orig) out); [| | | | | | | | done].
  - by intros message w node.
  - intros stdin. apply Hstart. set_solver.
  - intros stdin. apply Hstart. set_solver.
  - intros stdin. apply Hstart. set_solver.
  - intros w node Hn. unfold mkdir_exist_ok.
    destruct (fs w !! scratch_dir P self orig) as [[] |] eqn:E; try done.
    destruct (is_dir_in _ _); [| done]. cbn.
    rewrite lookup_insert_ne; [done | congruence].
  - intros w node Hn. unfold open_wb.
    destruct (create_or_truncate P (fs w) out) as [f |] eqn:E; [| done].
    apply create_or_truncate_lookup in E as ->. cbn. by rewrite lookup_insert_ne.
  - intros data w node Hn. cbn. by rewrite lookup_insert_ne.
  - intros w node Hn. cbn. by rewrite remove_tree_lookup.
Qed.

Lemma stat_inv (p : string) w (size : Z) w' :
  stat P p w = (Ret size, w') ->
  w' = w /\ 0 <= size /\ exists node, fs w !! p = Some node /\ size = st_size P node.
Proof.
  unfold stat. destruct (fs w !! p) as [node |]; [| discriminate].
  intros [= <- <-]. split_and!; [done | | by exists node].
  destruct node; simpl; lia.
Qed.

Lemma size_probe_fs w0 w1 :
  size_probe P self w0 = (Ret tt, w1) -> fs w1 = fs w0 /\ trace w1 = trace w0.
Proof.
  unfold size_probe. rewrite !bind_log.
  assert (forall w, exists l,
             match recompressed_output self with
             | Some r => log ("Output Recompressed: " ++ r)
             | None => ret tt
             end w = (Ret tt, add_log w l)) as Hopt.
  { intros w. destruct (recompressed_output self).
    - by eexists.
    - exists []. by rewrite add_log_nil. }
  match goal with
  | |- bind _ _ ?w = _ -> _ => destruct (Hopt w) as [l Hl]
  end.
  rewrite (bind_ret_run _ _ _ _ _ Hl), bind_log.
  intros (? & ? & [-> _]%stat_inv & H)%bind_inv.
  apply bind_inv in H as (? & ? & [-> _]%stat_inv & H).
  rewrite !bind_log in H. unfold log in H. by simplify_eq.
Qed.

Lemma statistics_of_invariants (source_size target_size diff_size : Z) :
  0 <= target_size -> 0 <= diff_size ->
  0 <= st_diff_size (statistics_of source_size target_size diff_size)
  /\ Qeq (st_compression_ratio (statistics_of source_size target_size diff_size))
         (if target_size =? 0 then 0%Q
          else (inject_Z 100 * inject_Z diff_size / inject_Z target_size)%Q)
  /\ st_space_saved (statistics_of source_size target_size diff_size)
     = target_size - diff_size.
Proof.
  intros Ht Hd. cbn. split_and!; [done | | done].
  destruct (Z.eqb_spec target_size 0) as [-> | Hne]; [reflexivity |].
  assert ((0 <? target_size) = true) as -> by (apply Z.ltb_lt; lia).
  field. intros H. apply Hne.
  unfold Qeq, inject_Z in H. cbn in H. lia.
Qed.

Lemma generate_statistics_inv (source_file target_file diff_file : string) w w' :
  generate_statistics P self source_file target_file diff_file w = (Ret tt, w') ->
  exists source_size target_size diff_size node,
    fs w !! target_file = Some node /\ target_size = st_size P node
    /\ 0 <= target_size /\ 0 <= diff_size
    /\ fs w' !! stats_file P self
       = Some (File (render_statistics P
                       (statistics_of source_size target_size diff_size))).
Proof.
  unfold generate_statistics.
  intros (ss & ? & [-> _]%stat_inv & H)%bind_inv.
  apply bind_inv in H as (ts & ? & (-> & Hts & node & Hnode & Hsize)%stat_inv & H).
  apply bind_inv in H as (ds & ? & (-> & Hds & _)%stat_inv & H).
  apply bind_inv in H as ([] & w1 & Hopen & H).
  unfold bind, write_opened, log in H. cbn in H. simplify_eq. cbn.
  exists ss, (st_size P node), ds, node. split_and!; try done.
  apply lookup_insert_eq.
Qed.

(** C8. Statistics invariants.  After a successful job the statistics file
    holds the report of metrics [st] with [0 <= diff_size],
    [compression_ratio = 100 * diff_size / target_size], which is 0 when
    [target_size] is 0, and [space_saved = target_size - diff_size]. *)
Theorem statistics_invariants w0 w' :
  generate_delta P self w0 = (Ret true, w') ->
  exists st,
    fs w' !! stats_file P self = Some (File (render_statistics P st))
    /\ 0 <= st_diff_size st
    /\ Qeq (st_compression_ratio st)
           (if st_target_size st =? 0 then 0%Q
            else (inject_Z 100 * inject_Z (st_diff_size st)
                  / inject_Z (st_target_size st))%Q)
    /\ st_space_saved st = st_target_size st - st_diff_size st.
Proof.
  unfold generate_delta.
  intros ([] & w1 & _ & H)%bind_inv.
  apply bind_inv in H as (target_for_diff & w2 & _ & H).
  unfold diff_and_report in H. rewrite !bind_log in H.
  apply bind_inv in H as (diffed & w3 & _ & H).
  destruct diffed; cbn [negb] in H; [| discriminate].
  rewrite bind_log in H.
  apply bind_inv in H as (compressed & w4 & _ & H).
  destruct compressed; cbn [negb] in H; [| discriminate].
  rewrite bind_log in H.
  apply bind_inv in H as ([] & w5 & Hstats & H).
  assert (fs w' = fs w5) as ->.
  { rewrite !bind_log in H. destruct (recompressed_output self).
    - rewrite !bind_log in H. unfold ret in H. by simplify_eq.
    - rewrite bind_ret, bind_log in H. unfold ret in H. by simplify_eq. }
  assert (exists target_file w6,
             generate_statistics P self (source_swu self) target_file
               (output_diff self) w6 = (Ret tt, w5)) as (tf & w6 & Hgen).
  { destruct (recompressed_output self) as [r |]; [| by eauto].
    apply bind_inv in Hstats as (there & w6 & _ & Hstats).
    destruct there; eauto. }
  apply generate_statistics_inv in Hgen
    as (ss & ts & ds & node & _ & _ & Hts & Hds & Hfile).
  exists (statistics_of ss ts ds). split; [done |].
  by apply statistics_of_invariants.
Qed.

End Pipeline.

(** ** The code at concrete inputs *)

Import Demo.

Lemma run_eta {A} (x : res A * World) (r : res A) : x.1 = r -> x = (r, x.2).
Proof. intros <-. by destruct x. Qed.

Lemma spawn_eta (x : proc * gmap string Node) (p : proc) : x.1 = p -> x = (p, x.2).
Proof. intros <-. by destruct x. Qed.

Lemma some_eta {A} (o : option A) (d : A) :
  match o with Some _ => true | None => false end = true ->
  o = Some (default d o).
Proof. by destruct o. Qed.

(** A target that lists the control member second is rebuilt with the
    control member first; the directory it holds is skipped. *)
Example swapped_target_is_reordered :
  (recompress_swu P_new job v2 out w_swapped).1 = Ret true
  /\ fs (recompress_swu P_new job v2 out w_swapped).2 !! out
     = Some (File (archive ["sw-description"; "rootfs.img"]))
  /\ (generate_delta P_new job w_swapped).1 = Ret true.
Proof. split_and!; vm_compute; reflexivity. Qed.

(** C7: the size probe raises.  The source archive is missing: the [stat] of
    line 267 raises [FileNotFoundError], which nothing in [generate_delta]
    catches; [recompress_swu], lines 173-177, guards the same call. *)
Theorem size_probe_raises :
  fs w_sourceless !! source_swu job = None
  /\ (size_probe P_new job w_sourceless).1 = Raise (OSError "in/v1.swu")
  /\ (generate_delta P_new job w_sourceless).1 = Raise (OSError "in/v1.swu").
Proof. split_and!; vm_compute; reflexivity. Qed.

(** C3: statistics after a failed recompression.  The installed cpio rejects
    [--reproducible]: the archive-construction process exits with status 2
    and leaves an empty file at the recompressed-output path.  The job falls
    back to the original target, of 26 bytes, for the diff and succeeds, but
    the report is computed from the empty file: target size 0. *)
Theorem statistics_after_failed_recompression :
  let final := generate_delta P_old job w_plain in
  final.1 = Ret true
  /\ fallback_warning ∈ log_lines final.2
  /\ Spawn ["bsdiff"; "in/v1.swu"; "in/v2.swu"; "work/swu.diff"] None None
       ∈ trace final.2
  /\ fs final.2 !! "in/v2.swu" = Some (File (archive two))
  /\ st_size P_old (File (archive two)) = 26
  /\ fs final.2 !! out = Some (File EmptyString)
  /\ fs final.2 !! "logs/statistics.txt"
     = Some (File (render_statistics P_old (statistics_of 26 0 39))).
Proof.
  cbv zeta. split_and!; try (vm_compute; reflexivity).
  - apply list_elem_of_In. vm_compute. tauto.
  - apply list_elem_of_In. vm_compute. tauto.
Qed.

(** C6 as stated fails: in the scratch directory of the target, [cpio -it]
    exits with status 2 and [cpio -idmv] with status 0, and [extract_swu]
    returns [None], which [recompress_swu] reports as a failed
    extraction. *)
Lemma listing_failure_fails_extract :
  (spawn P_unlisted cpio_list_argv None (Some (archive two)) (fs w_ready)).1
    = Exited 2 EmptyString "cpio: premature end of archive"
  /\ (spawn P_unlisted cpio_extract_argv (Some scratch) (Some (archive two))
            (fs w_ready)).1
     = Exited 0 EmptyString EmptyString
  /\ (extract_swu P_unlisted v2 scratch w_ready).1 = Ret None
  /\ (recompress_swu P_unlisted job v2 out w_plain).1 = Ret false
  /\ "ERROR: Failed to extract SWU"
       ∈ log_lines (recompress_swu P_unlisted job v2 out w_plain).2.
Proof.
  split_and!; try (vm_compute; reflexivity).
  apply list_elem_of_In. vm_compute. tauto.
Qed.


(** C1: a member is dropped.  The target holds the control member and a
    regular file named [-n].  Both are listed, extracted and verified, and
    both names are sent to the archive command.  But the [echo] of its loop
    takes [-n] for an option and writes nothing, so that [cpio -o] never
    reads the name: [recompress_swu] returns [True], and the archive it has
    built lists the control member only. *)
Theorem dashed_member_is_dropped :
  (recompress_extract P_new job v2 out w_dashed).1
    = Ret (18, Some ["sw-description"; "-n"])
  /\ on_disk P_new (fs (extracted P_new w_dashed)) scratch ["sw-description"; "-n"]
     = ["sw-description"; "-n"]
  /\ (recompress_swu P_new job v2 out w_dashed).1 = Ret true
  /\ trace (recompress_swu P_new job v2 out w_dashed).2
     = (trace (extracted P_new w_dashed)
        ++ [build_event scratch ["sw-description"; "-n"]])%list
  /\ read_lines (name_loop echo (feed ["sw-description"; "-n"])) = ["sw-description"]
  /\ fs (recompress_swu P_new job v2 out w_dashed).2 !! out
     = Some (File (archive ["sw-description"]))
  /\ lists P_new (archive ["sw-description"]) ["sw-description"].
Proof.
  split_and!; try (vm_compute; reflexivity).
  intros f. eexists _, _. split; vm_compute; reflexivity.
Qed.


(** The toy extraction writes below its working directory only. *)
Lemma unpack_keeps (cwd p : string) (ms : list (string * bool))
    (f : gmap string Node) (node : Node) :
  (forall n, join cwd n <> p) -> f !! p = Some node ->
  foldl (unpack cwd) f ms !! p = Some node.
Proof.
  intros Hne. revert f. induction ms as [|m ms IH]; intros f Hf; [done |].
  cbn [foldl]. apply IH. unfold unpack. by rewrite lookup_insert_ne.
Qed.

Lemma demo_tools_keep (old_cpio bad_listing : bool) :
  tools_keep (platform old_cpio bad_listing) scratch v2.
Proof.
  intros argv cwd stdin f node Hin Hf.
  repeat (apply elem_of_cons in Hin as [[= -> ->] | Hin]);
    [| | | by apply elem_of_nil in Hin]; cbn [spawn platform]; unfold run;
    cbn [negb]; try (destruct (is_dir_in f scratch); cbn [negb]; [| done]).
  - rewrite bool_decide_eq_true_2 by done. by destruct bad_listing.
  - rewrite bool_decide_eq_false_2 by discriminate.
    rewrite bool_decide_eq_true_2 by done. cbn [snd default].
    apply unpack_keeps; [| done].
    intros n. unfold join. destruct (String.prefix "/" n) eqn:E.
    + intros ->. discriminate E.
    + discriminate.
  - rewrite bool_decide_eq_false_2 by discriminate.
    rewrite bool_decide_eq_false_2 by discriminate.
    rewrite bool_decide_eq_true_2 by done. by destruct old_cpio.
Qed.

(** C2 on a target that lists the control member second, and on one that
    does not list it. *)
Lemma control_member_invariant_witness :
  logged_between (extracted P_new w_swapped)
    (recompress_swu P_new job v2 out w_swapped).2 order_warning
  /\ head (effective_order ["rootfs.img"; "sw-description"; "d"])
     = Some sw_description
  /\ on_disk P_new (fs (extracted P_new w_headless)) scratch
       (effective_order ["rootfs.img"; "d"])
     = on_disk P_new (fs (extracted P_new w_headless)) scratch ["rootfs.img"; "d"].
Proof.
  destruct (control_member_invariant P_new job v2 out 29
              ["rootfs.img"; "sw-description"; "d"] w_swapped
              (extracted P_new w_swapped)) as (Hlog & _ & Hfirst & _).
  - apply (run_eta (recompress_extract _ job v2 out _)). vm_compute. reflexivity.
  - discriminate.
  - destruct (control_member_invariant P_new job v2 out 14
                ["rootfs.img"; "d"] w_headless
                (extracted P_new w_headless)) as (_ & _ & _ & Habsent).
    + apply (run_eta (recompress_extract _ job v2 out _)). vm_compute. reflexivity.
    + discriminate.
    + split_and!; [exact Hlog | | ].
      * apply Hfirst. apply list_elem_of_In. vm_compute. tauto.
      * apply Habsent; [| vm_compute; reflexivity].
        intros Hin%list_elem_of_In. vm_compute in Hin.
        destruct Hin as [[=] | [[=] | []]].
Defined.

(** C5 on a target that lists a directory [d]. *)
Lemma missing_members_skipped_witness :
  ("d" ∉ on_disk P_new (fs (extracted P_new w_swapped)) scratch
           (effective_order ["rootfs.img"; "sw-description"; "d"]))
  /\ logged_between (extracted P_new w_swapped)
       (recompress_swu P_new job v2 out w_swapped).2 (skip_warning "d").
Proof.
  destruct (missing_members_skipped P_new job v2 out 29
              ["rootfs.img"; "sw-description"; "d"] w_swapped
              (extracted P_new w_swapped)) as (H & _ & _).
  - apply (run_eta (recompress_extract _ job v2 out _)). vm_compute. reflexivity.
  - apply (H "d").
    + apply list_elem_of_In. vm_compute. tauto.
    + vm_compute. reflexivity.
Defined.

(** C9 with a cpio that rejects [--reproducible]. *)
Lemma failed_build_leaves_output_witness :
  (recompress_swu P_old job v2 out w_plain).1 = Ret false
  /\ exists_in (fs (recompress_swu P_old job v2 out w_plain).2) out = true.
Proof.
  destruct (failed_build_leaves_output P_old job v2 out 26 two w_plain
              (extracted P_old w_plain) (opened P_old w_plain)
              (built P_old w_plain two)
              2 EmptyString "cpio: unrecognized option '--reproducible'")
    as (_ & Hfail & _ & Hthere).
  - apply (run_eta (recompress_extract _ job v2 out _)). vm_compute. reflexivity.
  - vm_compute. discriminate.
  - apply some_eta. vm_compute. reflexivity.
  - apply (spawn_eta (spawn _ _ _ _ _)). vm_compute. reflexivity.
  - discriminate.
  - split; assumption.
Defined.


(** C6, as amended, with a [cpio -it] that fails. *)
Lemma listing_failure_yields_none_witness :
  (extract_swu P_unlisted v2 scratch
     (recompress_prepare P_unlisted job v2 out w_plain).2).1 = Ret None
  /\ (recompress_swu P_unlisted job v2 out w_plain).1 = Ret false
  /\ trace (recompress_swu P_unlisted job v2 out w_plain).2
     = [Spawn cpio_list_argv None (Some (archive two));
        Spawn cpio_extract_argv (Some scratch) (Some (archive two))].
Proof.
  destruct (listing_failure_yields_none P_unlisted v2 scratch
              (recompress_prepare P_unlisted job v2 out w_plain).2
              (archive two) (archive two) 2 0
              EmptyString "cpio: premature end of archive" EmptyString EmptyString
              (spawn P_unlisted cpio_list_argv None (Some (archive two))
                     (fs (recompress_prepare P_unlisted job v2 out w_plain).2)).2
              (spawn P_unlisted cpio_extract_argv (Some scratch) (Some (archive two))
                     (spawn P_unlisted cpio_list_argv None (Some (archive two))
                        (fs (recompress_prepare P_unlisted job v2 out w_plain).2)).2).2)
    as [(Hnone & _) Hfails].
  - vm_compute. reflexivity.
  - apply (spawn_eta (spawn _ _ _ _ _)). vm_compute. reflexivity.
  - discriminate.
  - vm_compute. reflexivity.
  - apply (spawn_eta (spawn _ _ _ _ _)). vm_compute. reflexivity.
  - destruct (Hfails job out 26 w_plain) as (Hfalse & _ & _ & Htrace).
    + vm_compute. reflexivity.
    + apply (run_eta (recompress_prepare _ _ _ _ _)). vm_compute. reflexivity.
    + split_and!; [exact Hnone | exact Hfalse | exact Htrace].
Defined.

(** C8 on a job that succeeds. *)
Lemma statistics_invariants_witness :
  exists st,
    fs (generate_delta P_new job w_plain).2 !! stats_file P_new job
      = Some (File (render_statistics P_new st))
    /\ st_space_saved st = st_target_size st - st_diff_size st.
Proof.
  destruct (statistics_invariants P_new job w_plain
              (generate_delta P_new job w_plain).2) as (st & Hfile & _ & _ & Hsaved).
  - apply (run_eta (generate_delta _ _ _)). vm_compute. reflexivity.
  - exists st. split; assumption.
Defined.

(** ** More on the listing format *)

Lemma rstrip_idemp (s : string) : rstrip (rstrip s) = rstrip s.
Proof.
  induction s as [|c s IH]; [done |].
  cbn [rstrip]. destruct (rstrip s) as [|b r] eqn:E.
  - destruct (is_space c) eqn:Hc; [done |]. cbn [rstrip]. by rewrite Hc.
  - cbn [rstrip] in *. by rewrite IH.
Qed.

Lemma lstrip_head (s : string) :
  lstrip s = EmptyString
  \/ exists c r, lstrip s = String c r /\ is_space c = false.
Proof.
  induction s as [|c s IH]; [by left |].
  cbn [lstrip]. destruct (is_space c) eqn:Hc; [done |]. right. by exists c, s.
Qed.

Lemma rstrip_head (c : ascii) (r : string) :
  is_space c = false -> exists r', rstrip (String c r) = String c r'.
Proof.
  intros Hc. cbn [rstrip]. destruct (rstrip r); [| by eexists].
  rewrite Hc. by eexists.
Qed.

Lemma strip_idemp (s : string) : strip (strip s) = strip s.
Proof.
  unfold strip. destruct (lstrip_head s) as [-> | (c & r & -> & Hc)]; [done |].
  destruct (rstrip_head c r Hc) as [r' Hr]. rewrite Hr.
  cbn [lstrip]. rewrite Hc, <- Hr. apply rstrip_idemp.
Qed.

Lemma parse_listing_clean (stdout : string) : Forall clean (parse_listing stdout).
Proof.
  pose proof (parse_listing_one_line stdout) as Hall.
  unfold parse_listing in *. rewrite Forall_fmap in *.
  rewrite Forall_forall in *. intros line Hin. specialize (Hall line Hin).
  cbn in *. destruct Hall as [H1 H2]. split_and!; [done | done | apply strip_idemp].
Qed.

Lemma splitlines_line (fname rest : string) :
  one_line fname -> splitlines (fname ++ nl ++ rest) = fname :: splitlines rest.
Proof.
  induction fname as [|c s IH]; intros Hs.
  - by destruct rest.
  - assert (is_linebreak c = false) as Hc.
    { apply Hs. cbn. apply elem_of_cons. by left. }
    rewrite append_cons. cbn [splitlines]. rewrite Hc, IH; [done |].
    intros a Ha. apply Hs. cbn. apply elem_of_cons. by right.
Qed.

Lemma parse_listing_line (fname rest : string) :
  clean fname -> parse_listing (fname ++ nl ++ rest) = fname :: parse_listing rest.
Proof.
  intros (Hne & Hline & Hstrip). unfold parse_listing.
  rewrite splitlines_line by done. rewrite filter_cons, Hstrip.
  rewrite decide_True by by destruct fname. by rewrite fmap_cons, Hstrip.
Qed.

(** X5. The enumeration sent to the archive command and the listing read
    from [cpio -it] are the same format: parsing as a listing the text that
    [feed] makes of clean names gives these names back. *)
Theorem parse_listing_feed (file_list : list string) :
  Forall clean file_list -> parse_listing (feed file_list) = file_list.
Proof.
  unfold feed. induction 1 as [|fname rest Hf Hrest IH]; [done |].
  destruct rest as [|g rest].
  - change (String.concat nl [fname]) with fname.
    rewrite <- (append_nil_r (fname ++ nl)), append_assoc.
    by rewrite parse_listing_line.
  - change (String.concat nl (fname :: g :: rest))
      with (fname ++ nl ++ String.concat nl (g :: rest)).
    rewrite !append_assoc, parse_listing_line by done.
    by rewrite IH.
Qed.

Lemma parse_listing_feed_witness :
  parse_listing (feed ["sw-description"; "rootfs.ext4.gz"])
  = ["sw-description"; "rootfs.ext4.gz"].
Proof.
  apply parse_listing_feed. repeat constructor; try discriminate; try reflexivity.
  all: intros c Hc%list_elem_of_In; vm_compute in Hc;
    repeat (destruct Hc as [<- | Hc]; [reflexivity |]); destruct Hc.
Defined.

Lemma feed_concat (file_list : list string) :
  file_list <> [] ->
  String.concat EmptyString ((fun fname => fname ++ nl) <$> file_list)
  = feed file_list.
Proof.
  unfold feed. induction file_list as [|fname rest IH]; [done |]. intros _.
  destruct rest as [|g rest]; [done |].
  change (String.concat EmptyString
            ((fun fname => fname ++ nl) <$> fname :: g :: rest))
    with ((fname ++ nl)
          ++ String.concat EmptyString ((fun fname => fname ++ nl) <$> g :: rest)).
  rewrite IH by done.
  change (String.concat nl (fname :: g :: rest))
    with (fname ++ nl ++ String.concat nl (g :: rest)).
  by rewrite !append_assoc.
Qed.

(** X17. What the archiver reads.  The loop of the archive command writes to
    [cpio -o], for the verified names it is sent, what the shell's [echo]
    writes for each name, in their order.  So when [echo] writes every name
    as it is, followed by a line feed, the loop passes the enumeration on
    unchanged and [cpio -o] reads exactly the verified names, in order. *)
Theorem name_loop_passes_names (echo : string -> string) (file_list : list string) :
  file_list <> [] -> Forall one_line file_list ->
  name_loop echo (feed file_list) = String.concat EmptyString (echo <$> file_list)
  /\ (Forall (fun fname => echo fname = fname ++ nl) file_list ->
      name_loop echo (feed file_list) = feed file_list
      /\ read_lines (name_loop echo (feed file_list)) = file_list).
Proof.
  intros Hne Hlines.
  assert (name_loop echo (feed file_list)
          = String.concat EmptyString (echo <$> file_list)) as Hloop.
  { unfold name_loop. by rewrite read_lines_feed. }
  split; [done |]. intros Hecho.
  assert (echo <$> file_list = (fun fname => fname ++ nl) <$> file_list) as Hsame.
  { clear Hne Hlines Hloop. induction Hecho as [|fname rest Hf _ IH]; [done |].
    by rewrite !fmap_cons, Hf, IH. }
  rewrite Hloop, Hsame, feed_concat by done.
  split; [done | by apply read_lines_feed].
Qed.

(** ** Running commands *)

Section Commands.

Variable P : Platform.

Lemma start_run (argv : list string) (cwd stdin : option string) w :
  start P argv cwd stdin w =
    (Ret (spawn P argv cwd stdin (fs w)).1,
     mkWorld (spawn P argv cwd stdin (fs w)).2 (log_lines w)
             (trace w ++ [Spawn argv cwd stdin])).
Proof. unfold start. by destruct (spawn P argv cwd stdin (fs w)). Qed.

Lemma run_command_cases (cmd : list string) (description : string) w :
  trace (run_command P cmd description w).2 = (trace w ++ [Spawn cmd None None])%list
  /\ fs (run_command P cmd description w).2 = (spawn P cmd None None (fs w)).2
  /\ match (spawn P cmd None None (fs w)).1 with
     | Exited rc out err =>
         (run_command P cmd description w).1 = Ret (rc =? 0)
         /\ (rc <> 0 ->
             logged_between w (run_command P cmd description w).2
               ("ERROR: Command failed with code " ++ pretty rc)
             /\ logged_between w (run_command P cmd description w).2
                  ("STDERR: " ++ err))
     | NotStarted =>
         (run_command P cmd description w).1 = Raise (OSError (hd EmptyString cmd))
     end.
Proof.
  unfold run_command. rewrite !bind_log, add_log_app.
  set (w1 := add_log w _).
  assert (fs w1 = fs w) as Hfs by done.
  destruct (spawn P cmd None None (fs w)) as [[rc out err |] f] eqn:Hs;
    rewrite <- Hfs in Hs; cbn [fst snd].
  - destruct (Z.eqb_spec rc 0) as [-> | Hrc].
    + destruct (nonempty out) eqn:Hout.
      * erewrite try_except_ret; cycle 1.
        { erewrite bind_ret_run by (eapply subprocess_run_ok; apply Hs).
          cbn [fst]. unfold when. rewrite Hout, bind_log. reflexivity. }
        cbn. by split_and!.
      * erewrite try_except_ret; cycle 1.
        { erewrite bind_ret_run by (eapply subprocess_run_ok; apply Hs).
          cbn [fst]. unfold when. rewrite Hout, bind_ret. reflexivity. }
        cbn. by split_and!.
    + erewrite try_except_raise; cycle 1.
      { eapply bind_raise_run, (subprocess_run_failed P); [apply Hs | done]. }
      { reflexivity. }
      rewrite !bind_log. cbn. split_and!; [done | done | done |].
      intros _. split.
      * eexists [_; _], [_]. cbn. by rewrite <- !app_assoc.
      * eexists [_; _; _], []. cbn. by rewrite <- !app_assoc.
  - assert (subprocess_run P cmd None None w1
            = (Raise (OSError (hd EmptyString cmd)),
               mkWorld f (log_lines w1) (trace w1 ++ [Spawn cmd None None])))
      as Hrun.
    { unfold subprocess_run. erewrite bind_ret_run by apply start_run.
      rewrite Hs. reflexivity. }
    unfold try_except. rewrite (bind_raise_run _ _ _ _ _ Hrun). cbn. done.
Qed.

(** X1. When [run_command] returns, it has started exactly one process,
    without working directory or input, that process has exited, and the
    value returned tells whether its exit status was 0; [False] is returned
    after the status and the captured standard error were logged.  So when
    the process cannot be started [run_command] returns nothing: it
    raises. *)
Theorem run_command_outcome (cmd : list string) (description : string) w
    (ok : bool) w' :
  run_command P cmd description w = (Ret ok, w') ->
  trace w' = (trace w ++ [Spawn cmd None None])%list
  /\ exists rc out err,
       (spawn P cmd None None (fs w)).1 = Exited rc out err
       /\ ok = (rc =? 0)
       /\ (ok = false ->
           logged_between w w' ("ERROR: Command failed with code " ++ pretty rc)
           /\ logged_between w w' ("STDERR: " ++ err)).
Proof.
  intros Hrun.
  pose proof (run_command_cases cmd description w) as (Htr & _ & Hcase).
  rewrite Hrun in Htr, Hcase. cbn [fst snd] in Htr, Hcase.
  split; [done |].
  destruct (spawn P cmd None None (fs w)).1 as [rc out err |]; [| discriminate].
  destruct Hcase as [[= ->] Hlog]. exists rc, out, err.
  split_and!; [done | done |].
  intros Hrc%Z.eqb_neq. by apply Hlog.
Qed.

Lemma create_bsdiff_true (source_file target_file diff_file : string) w w' :
  create_bsdiff P source_file target_file diff_file w = (Ret true, w') ->
  which P "bsdiff" = true
  /\ trace w'
     = (trace w ++ [Spawn ["bsdiff"; source_file; target_file; diff_file]
                          None None])%list
  /\ exists out err,
       (spawn P ["bsdiff"; source_file; target_file; diff_file] None None (fs w)).1
       = Exited 0 out err.
Proof.
  unfold create_bsdiff. rewrite bind_log.
  destruct (which P "bsdiff"); cbn [negb];
    [| rewrite bind_log; unfold ret; discriminate].
  set (w1 := add_log w _). intros H.
  pose proof (run_command_cases
                ["bsdiff"; source_file; target_file; diff_file]
                "Binary diff with bsdiff" w1) as (Htr & _ & Hrun).
  rewrite H in Htr, Hrun. cbn [fst snd] in Htr, Hrun.
  change (fs w1) with (fs w) in Hrun. change (trace w1) with (trace w) in Htr.
  split_and!; [done | done |].
  destruct (spawn P _ None None (fs w)).1 as [rc out err |]; [| discriminate].
  destruct Hrun as [[= Hrc] _]. symmetry in Hrc. apply Z.eqb_eq in Hrc as ->.
  by exists out, err.
Qed.

(** X2. When [create_bsdiff] returns [True], [bsdiff] was found in PATH and
    the one process started, [bsdiff source target diff], has exited with
    status 0.  When [bsdiff] is not in PATH, what [create_bsdiff] returns is
    [False], after logging the error and without starting a process. *)
Theorem create_bsdiff_outcome (source_file target_file diff_file : string) w
    (ok : bool) w' :
  create_bsdiff P source_file target_file diff_file w = (Ret ok, w') ->
  (ok = true ->
   which P "bsdiff" = true
   /\ trace w'
      = (trace w ++ [Spawn ["bsdiff"; source_file; target_file; diff_file]
                           None None])%list
   /\ exists out err,
        (spawn P ["bsdiff"; source_file; target_file; diff_file]
               None None (fs w)).1 = Exited 0 out err)
  /\ (which P "bsdiff" = false ->
      ok = false
      /\ trace w' = trace w
      /\ logged_between w w' "ERROR: bsdiff not found in PATH").
Proof.
  intros Hrun. split.
  - intros ->. by apply create_bsdiff_true in Hrun.
  - intros Hw. revert Hrun. unfold create_bsdiff.
    rewrite bind_log, Hw. cbn [negb]. rewrite bind_log. unfold ret.
    intros [= <- <-]. split_and!; [done | done |].
    eexists [_], []. cbn. by rewrite <- !app_assoc.
Qed.

(** X4. A member order that [extract_swu] returns is never empty, and every
    name in it is clean: not empty, free of line boundaries, and without
    white space at either end. *)
Theorem extract_swu_names_clean (swu_file extract_dir : string)
    (listed : list string) w w' :
  extract_swu P swu_file extract_dir w = (Ret (Some listed), w') ->
  listed <> [] /\ Forall clean listed.
Proof.
  intros [Hne [stdout ->]]%extract_swu_some. split; [done |].
  apply parse_listing_clean.
Qed.

(** X8. When [extract_swu] returns, the archive was read and both [cpio]
    processes were started and have exited, the listing first and the
    extraction second, in the extraction directory.  The value returned is
    the parsed listing exactly when both exited with status 0 and the
    listing is not empty, and [None] otherwise; a failed listing and a
    failed extraction are each logged. *)
Theorem extract_swu_outcome (swu_file extract_dir : string) w
    (r : option (list string)) w' :
  extract_swu P swu_file extract_dir w = (Ret r, w') ->
  exists (data data1 : string) (rc rc2 : Z) (out err out2 err2 : string)
         (f1 f2 : gmap string Node),
    fs w !! swu_file = Some (File data)
    /\ spawn P cpio_list_argv None (Some data) (fs w) = (Exited rc out err, f1)
    /\ f1 !! swu_file = Some (File data1)
    /\ spawn P cpio_extract_argv (Some extract_dir) (Some data1) f1
       = (Exited rc2 out2 err2, f2)
    /\ trace w'
       = (trace w ++ [Spawn cpio_list_argv None (Some data);
                      Spawn cpio_extract_argv (Some extract_dir) (Some data1)])%list
    /\ r = (if (rc =? 0) && (rc2 =? 0)
            then match parse_listing out with
                 | [] => None
                 | _ => Some (parse_listing out)
                 end
            else None)
    /\ (rc <> 0 ->
        logged_between w w'
          (listing_warning P swu_file (CalledProcessError cpio_list_argv rc err)))
    /\ (rc2 <> 0 ->
        logged_between w w'
          ("Failed to extract " ++ path_name P swu_file ++ ": "
           ++ str_exn P (CalledProcessError cpio_extract_argv rc2 err2))).
Proof.
  intros Hrun.
  destruct (extract_swu_returns P _ _ _ _ _ Hrun)
    as (data & rc & out & err & f1 & data1 & rc2 & out2 & err2 & f2
        & Hfile & Hlist & Hfile1 & Hextract).
  destruct (extract_swu_exited P swu_file extract_dir w _ _ _ _ _ _ _ _ _ _
              Hfile Hlist Hfile1 Hextract) as (l & Heq & Hwarn & Hfail).
  rewrite Heq in Hrun. injection Hrun as <- <-.
  exists data, data1, rc, rc2, out, err, out2, err2, f1, f2.
  split_and!; try done.
  - intros Hrc. by eapply logged_between_intro; [| apply Hwarn].
  - intros Hrc. by eapply logged_between_intro; [| apply Hfail].
Qed.

End Commands.

(** ** Failures that are not results *)

Section Failures.

Variable P : Platform.

Lemma open_rb_raise (p : string) w :
  is_file_in (fs w) p = false -> open_rb p w = (Raise (OSError p), w).
Proof.
  unfold open_rb, is_file_in. by destruct (fs w !! p) as [[] |].
Qed.

Lemma extract_swu_unreadable (swu_file extract_dir : string) w :
  is_file_in (fs w) swu_file = false ->
  extract_swu P swu_file extract_dir w
  = (Raise (OSError swu_file),
     add_log w ["Extracting " ++ path_name P swu_file ++ " to " ++ extract_dir]).
Proof.
  intros Hno. unfold extract_swu. rewrite bind_log.
  set (w1 := add_log w _).
  assert (open_rb swu_file w1 = (Raise (OSError swu_file), w1)) as Hopen
    by by apply open_rb_raise.
  apply bind_raise_run. unfold try_except.
  by rewrite (bind_raise_run _ _ _ _ _ Hopen).
Qed.

Lemma gzip_steps (input_file output_file : string) w :
  (open_rb input_file ;;
   open_wb P output_file ;;
   data ← open_rb input_file;
   write_opened output_file (gzip_deflate P data) ;;
   ret true) w =
  match fs w !! input_file with
  | Some (File _) =>
      match create_or_truncate P (fs w) output_file with
      | Some f1 =>
          match f1 !! input_file with
          | Some (File data) =>
              (Ret true,
               set_fs (<[output_file := File (gzip_deflate P data)]> f1) w)
          | _ => (Raise (OSError input_file), set_fs f1 w)
          end
      | None => (Raise (OSError output_file), w)
      end
  | _ => (Raise (OSError input_file), w)
  end.
Proof.
  unfold bind, open_rb, open_wb, write_opened, ret, set_fs.
  destruct (fs w !! input_file) as [[data | |] |]; try done.
  destruct (create_or_truncate P (fs w) output_file) as [f1 |]; [| done].
  cbn. by destruct (f1 !! input_file) as [[] |].
Qed.


Lemma recompress_extract_unreadable (self : SimpleDeltaGen) (orig out : string) w :
  is_file_in (fs w) orig = false ->
  exists e w',
    recompress_extract P self orig out w = (Raise e, w')
    /\ (e = OSError orig \/ e = OSError (scratch_dir P self orig))
    /\ trace w' = trace w.
Proof.
  intros Hno. unfold recompress_extract. rewrite !bind_log, !add_log_app.
  set (w1 := add_log w _).
  assert (exists size l,
             try_except (stat P orig)
               (except_OSError (fun _ =>
                  log "WARNING: Could not stat original file (may have been cleaned)" ;;
                  ret 0)) w1 = (Ret size, add_log w1 l)) as (size & l & Hstat).
  { unfold try_except, stat. destruct (fs w1 !! orig).
    - eexists _, []. by rewrite add_log_nil.
    - eexists _, [_]. reflexivity. }
  rewrite (bind_ret_run _ _ _ _ _ Hstat).
  set (w2 := add_log w1 l).
  assert (fs w2 = fs w) as Hfs by done.
  assert (trace w2 = trace w) as Htr by done.
  clearbody w2. unfold bind at 1, mkdir_exist_ok. rewrite Hfs.
  destruct (fs w !! scratch_dir P self orig) as [[] |] eqn:Hs.
  - eexists _, _. split; [reflexivity | auto].
  - erewrite bind_raise_run
      by (apply extract_swu_unreadable; by rewrite Hfs).
    eexists _, _. split; [reflexivity | auto].
  - eexists _, _. split; [reflexivity | auto].
  - destruct (is_dir_in (fs w) _).
    + erewrite bind_raise_run.
      2:{ apply extract_swu_unreadable. unfold is_file_in, set_fs. cbn.
          destruct (decide (scratch_dir P self orig = orig)) as [He | Hne].
          - by rewrite He, lookup_insert_eq.
          - rewrite lookup_insert_ne by done. exact Hno. }
      eexists _, _. split; [reflexivity | auto].
    + eexists _, _. split; [reflexivity | auto].
Qed.


(** X7. When [cpio] cannot be started, [extract_swu] raises the error of the
    listing step: it does not go on to the extraction and does not return
    [None]. *)
Theorem unstartable_cpio_raises (swu_file extract_dir : string) w (data : string) :
  fs w !! swu_file = Some (File data) ->
  (spawn P cpio_list_argv None (Some data) (fs w)).1 = NotStarted ->
  (extract_swu P swu_file extract_dir w).1 = Raise (OSError "cpio")
  /\ trace (extract_swu P swu_file extract_dir w).2
     = (trace w ++ [Spawn cpio_list_argv None (Some data)])%list.
Proof.
  intros Hfile Hspawn. unfold extract_swu. rewrite bind_log.
  set (w1 := add_log w _).
  assert (subprocess_run P cpio_list_argv None (Some data) w1
          = (Raise (OSError "cpio"),
             mkWorld (spawn P cpio_list_argv None (Some data) (fs w)).2
                     (log_lines w1)
                     (trace w1 ++ [Spawn cpio_list_argv None (Some data)])))
    as Hrun.
  { unfold subprocess_run. erewrite bind_ret_run by apply start_run.
    change (fs w1) with (fs w). by rewrite Hspawn. }
  erewrite bind_raise_run; cycle 1.
  { unfold try_except.
    erewrite bind_ret_run by (by apply open_rb_run).
    rewrite (bind_raise_run _ _ _ _ _ Hrun). reflexivity. }
  done.
Qed.

End Failures.

(** ** More on the repackager *)

Section RepackagerMore.

Variable P : Platform.
Variable self : SimpleDeltaGen.
Variables (orig out : string).

Local Abbreviation temp := (scratch_dir P self orig).
Local Abbreviation verified f listed := (on_disk P f temp (effective_order listed)).

(** X9. What success guarantees.  When [recompress_swu] returns [True], the
    output file was opened, the archive-construction process ran on the
    verified list and exited with status 0, and it was the only process
    started after the extraction.  The cleanup that follows reaches into
    the scratch directory only: every path outside it, the log file apart,
    is as that process left it, with what the process wrote at the output
    path. *)
Theorem recompress_swu_success (size : Z) (listed : list string) w0 w :
  recompress_extract P self orig out w0 = (Ret (size, Some listed), w) ->
  (recompress_swu P self orig out w0).1 = Ret true ->
  exists f1 archive err f2,
    create_or_truncate P (fs w) out = Some f1
    /\ spawn P cpio_create_argv (Some temp) (Some (feed (verified (fs w) listed))) f1
       = (Exited 0 archive err, f2)
    /\ trace (recompress_swu P self orig out w0).2
       = (trace w ++ [build_event temp (verified (fs w) listed)])%list
    /\ (forall p, path_within P temp p = false -> p <> log_file P self ->
          fs (recompress_swu P self orig out w0).2 !! p
          = <[out := File archive]> f2 !! p).
Proof.
  intros Hx.
  destruct (recompress_swu_outcome P _ _ _ _ _ _ _ Hx) as (l & Hrun & _ & _).
  rewrite Hrun. unfold recompress_outcome.
  destruct (on_disk P (fs w) temp (effective_order listed)) as [|x rest] eqn:E;
    [discriminate |].
  unfold build_outcome.
  destruct (create_or_truncate P (fs w) out) as [f1 |]; [| discriminate].
  destruct (spawn P cpio_create_argv (Some temp) (Some (feed (x :: rest))) f1)
    as [[rc archive err |] f2] eqn:Hs; [| discriminate].
  destruct (Z.eqb_spec rc 0) as [-> | Hrc]; [| discriminate].
  cbn. intros _. exists f1, archive, err, f2. split_and!; try done.
  intros p Hp _. by apply remove_tree_lookup.
Qed.

(** X10. The two failures that are caught as exceptions.  With a verified
    list that is not empty, when the output file cannot be opened
    [recompress_swu] returns [False] without starting the
    archive-construction process, and when that process cannot be started it
    returns [False] too.  The cleanup reaches into the scratch directory
    only: every path outside it, the log file apart, is as it was, or as
    the attempt to start the process left it. *)
Theorem recompress_swu_caught_failures (size : Z) (listed : list string) w0 w :
  recompress_extract P self orig out w0 = (Ret (size, Some listed), w) ->
  verified (fs w) listed <> [] ->
  (create_or_truncate P (fs w) out = None ->
   (recompress_swu P self orig out w0).1 = Ret false
   /\ trace (recompress_swu P self orig out w0).2 = trace w
   /\ (forall p, path_within P temp p = false -> p <> log_file P self ->
         fs (recompress_swu P self orig out w0).2 !! p = fs w !! p))
  /\ (forall f1 f2,
        create_or_truncate P (fs w) out = Some f1 ->
        spawn P cpio_create_argv (Some temp) (Some (feed (verified (fs w) listed))) f1
          = (NotStarted, f2) ->
        (recompress_swu P self orig out w0).1 = Ret false
        /\ trace (recompress_swu P self orig out w0).2
           = (trace w ++ [build_event temp (verified (fs w) listed)])%list
        /\ (forall p, path_within P temp p = false -> p <> log_file P self ->
              fs (recompress_swu P self orig out w0).2 !! p = f2 !! p)).
Proof.
  intros Hx Hne.
  destruct (recompress_swu_outcome P _ _ _ _ _ _ _ Hx) as (l & Hrun & _ & _).
  rewrite Hrun. unfold recompress_outcome.
  destruct (on_disk P (fs w) temp (effective_order listed)) as [|x rest] eqn:E;
    [done |].
  unfold build_outcome. split.
  - intros ->. cbn. rewrite app_nil_r. split_and!; [done | done |].
    intros p Hp _. by apply remove_tree_lookup.
  - intros f1 f2 -> ->. cbn. split_and!; [done | done |].
    intros p Hp _. by apply remove_tree_lookup.
Qed.


End RepackagerMore.

(** ** The order correction and the metrics *)

(** X15. The order that is verified always starts with the control member,
    and correcting it again changes nothing.  When the listing holds the
    control member the corrected order is a permutation of the listing, so
    no member is lost or repeated; otherwise it is the listing with the
    control member put in front. *)
Theorem effective_order_stable (listed : list string) :
  control_is_first (effective_order listed) = true
  /\ effective_order (effective_order listed) = effective_order listed
  /\ (sw_description ∈ listed -> effective_order listed ≡ₚ listed)
  /\ (sw_description ∉ listed -> effective_order listed = sw_description :: listed).
Proof.
  assert (control_is_first (effective_order listed) = true) as Hfirst.
  { unfold effective_order. destruct (control_is_first listed) eqn:E; [done |].
    done. }
  split_and!; [done | | |].
  - unfold effective_order at 1. by rewrite Hfirst.
  - intros Hin. unfold effective_order. destruct (control_is_first listed); [done |].
    unfold corrected_order, contains. rewrite bool_decide_eq_true_2 by done.
    destruct (remove_first_split _ _ Hin) as (l1 & l2 & -> & _ & ->).
    by rewrite Permutation_middle.
  - intros Hnot. unfold effective_order.
    destruct (control_is_first listed) eqn:E.
    + apply control_is_first_true in E. destruct listed as [|x rest]; [done |].
      cbn in E. simplify_eq. exfalso. apply Hnot, elem_of_cons. by left.
    + unfold corrected_order, contains. by rewrite bool_decide_eq_false_2.
Qed.

(** X16. The metrics of a report agree with each other: for a target of
    positive size the compression ratio, taken as an exact quotient, is not
    negative, and it is above 100 exactly when the space saved is
    negative. *)
Theorem statistics_consistent (source_size target_size diff_size : Z) :
  0 < target_size -> 0 <= diff_size ->
  (0 <= st_compression_ratio (statistics_of source_size target_size diff_size))%Q
  /\ ((100 < st_compression_ratio (statistics_of source_size target_size diff_size))%Q
      <-> st_space_saved (statistics_of source_size target_size diff_size) < 0).
Proof.
  intros Ht Hd. cbn.
  assert ((0 <? target_size) = true) as -> by by apply Z.ltb_lt.
  assert (exists t, target_size = Z.pos t) as [t ->].
  { destruct target_size; try lia. by eexists. }
  unfold Qle, Qlt, Qeq, Qdiv, Qmult, Qinv, inject_Z. cbn.
  split_and!; [nia | split; nia].
Qed.

Lemma statistics_consistent_witness :
  (100 < st_compression_ratio (statistics_of 26 26 39))%Q
  /\ st_space_saved (statistics_of 26 26 39) < 0.
Proof.
  destruct (statistics_consistent 26 26 39) as (_ & H); [lia | lia |].
  split; [apply H |]; reflexivity.
Defined.

(** ** More on the whole job *)

Section Job.

Variable P : Platform.
Variable self : SimpleDeltaGen.

Lemma select_target_result w1 (t : string) w2 :
  select_target P self w1 = (Ret t, w2) ->
  t = target_swu self \/ recompressed_output self = Some t.
Proof.
  unfold select_target. destruct (recompressed_output self) as [r |].
  - rewrite bind_log. intros (ok & w & _ & H)%bind_inv.
    destruct ok; cbn [negb] in H; rewrite bind_log in H; unfold ret in H;
      simplify_eq; auto.
  - rewrite bind_log. unfold ret. intros [= <- _]. auto.
Qed.

Lemma select_target_none w1 :
  recompressed_output self = None ->
  select_target P self w1
  = (Ret (target_swu self),
     add_log w1 ["No recompression requested, using original target"]).
Proof. unfold select_target. by intros ->. Qed.

Lemma compress_with_zstd_trace (input_file output_file : string) w :
  trace w `prefix_of` trace (compress_with_zstd P input_file output_file w).2.
Proof.
  unfold compress_with_zstd. rewrite bind_log.
  destruct (which P "zstd"); cbn [negb].
  - set (w1 := add_log w _).
    pose proof (run_command_cases P
                  ["zstd"; "-f"; "-3"; input_file; "-o"; output_file]
                  "Compress with zstd" w1) as (-> & _).
    by eexists.
  - unfold compress_with_gzip. rewrite !bind_log, gzip_steps.
    cbn [fs add_log]. repeat case_match; done.
Qed.

Lemma generate_statistics_run (source_file target_file diff_file : string) w w' :
  generate_statistics P self source_file target_file diff_file w = (Ret tt, w') ->
  fs w' = <[stats_file P self :=
              File (render_statistics P
                      (statistics_of (size_at P (fs w) source_file)
                                     (size_at P (fs w) target_file)
                                     (size_at P (fs w) diff_file)))]> (fs w)
  /\ trace w' = trace w
  /\ is_Some (fs w !! source_file) /\ is_Some (fs w !! target_file)
  /\ is_Some (fs w !! diff_file).
Proof.
  unfold generate_statistics.
  intros (ss & ? & (-> & _ & ns & Hns & ->)%stat_inv & H)%bind_inv.
  apply bind_inv in H as (ts & ? & (-> & _ & nt & Hnt & ->)%stat_inv & H).
  apply bind_inv in H as (ds & ? & (-> & _ & nd & Hnd & ->)%stat_inv & H).
  apply bind_inv in H as ([] & w1 & Hopen & H).
  unfold open_wb in Hopen.
  destruct (create_or_truncate P (fs w) (stats_file P self)) as [f |] eqn:Hc;
    [| discriminate].
  apply create_or_truncate_lookup in Hc as ->.
  unfold bind, write_opened, log in H. simplify_eq. cbn.
  unfold size_at. rewrite Hns, Hnt, Hnd, insert_insert_eq. by split_and!.
Qed.

(** The steps of [diff_and_report] after a successful diff. *)
Lemma diff_and_report_inv (t : string) w2 w' :
  diff_and_report P self t w2 = (Ret true, w') ->
  exists w3 w4 w5 w6,
    create_bsdiff P (source_swu self) t (temp_diff P self) w3 = (Ret true, w4)
    /\ fs w3 = fs w2 /\ trace w3 = trace w2
    /\ trace w4 `prefix_of` trace w5
    /\ generate_statistics P self (source_swu self) (reported_target self (fs w5))
         (output_diff self) w5 = (Ret tt, w6)
    /\ fs w' = fs w6 /\ trace w' = trace w5.
Proof.
  unfold diff_and_report. rewrite !bind_log, !add_log_app.
  set (w3 := add_log w2 _).
  intros (diffed & w4 & Hdiff & H)%bind_inv.
  destruct diffed; cbn [negb] in H; [| discriminate].
  rewrite bind_log in H.
  pose proof (compress_with_zstd_trace (temp_diff P self) (output_diff self)
                (add_log w4 ["Step 3: Compressing diff file..."])) as Hz.
  apply bind_inv in H as (compressed & w5 & Hzstd & H).
  rewrite Hzstd in Hz. cbn [snd add_log trace] in Hz.
  destruct compressed; cbn [negb] in H; [| discriminate].
  rewrite bind_log in H.
  apply bind_inv in H as ([] & w6 & Hstats & H).
  assert (fs w' = fs w6 /\ trace w' = trace w6) as [Hfs Htr].
  { rewrite !bind_log in H. destruct (recompressed_output self).
    - rewrite !bind_log in H. unfold ret in H. by simplify_eq.
    - rewrite bind_ret, bind_log in H. unfold ret in H. by simplify_eq. }
  set (w5' := add_log w5 ["Step 4: Generating statistics..."]) in *.
  assert (generate_statistics P self (source_swu self)
            (reported_target self (fs w5')) (output_diff self) w5'
          = (Ret tt, w6)) as Hgen.
  { unfold reported_target. destruct (recompressed_output self) as [r |]; [| done].
    apply bind_inv in Hstats as (there & w & Hthere & Hstats).
    unfold path_exists in Hthere. simplify_eq. by destruct (exists_in _ r). }
  destruct (generate_statistics_run _ _ _ _ _ Hgen) as (_ & Htr6 & _).
  exists w3, w4, w5', w6. split_and!; [done | done | done | done | done | done |].
  congruence.
Qed.

(** *** The processes of the diff step *)

Local Abbreviation grows := (respects (fun w w' => trace w `prefix_of` trace w')).

Lemma grows_bind {A B} (m : M A) (k : A -> M B) :
  grows m -> (forall a, grows (k a)) -> grows (bind m k).
Proof. apply respects_bind. intros w1 w2 w3 H1 H2. by etrans. Qed.

Lemma grows_still {A} (m : M A) : (forall w, trace (m w).2 = trace w) -> grows m.
Proof. intros H w. cbn. by rewrite H. Qed.

Lemma grows_generate_statistics (source_file target_file diff_file : string) :
  grows (generate_statistics P self source_file target_file diff_file).
Proof.
  unfold generate_statistics.
  repeat (apply grows_bind; [apply respects_stat; by intros ? | intros ?]).
  apply grows_bind; [| intros _; apply grows_bind; [| intros _]];
    apply grows_still; intros w; [| done | done].
  unfold open_wb. by destruct (create_or_truncate _ _ _).
Qed.

(** Once [bsdiff] is found, the diff step starts it first, whatever comes
    of the step. *)
Lemma diff_and_report_starts_bsdiff (t : string) w :
  which P "bsdiff" = true ->
  exists after,
    trace (diff_and_report P self t w).2
    = (trace w ++ bsdiff_event self P t :: after)%list.
Proof.
  intros Hw. unfold diff_and_report. rewrite !bind_log, !add_log_app.
  set (w3 := add_log w _).
  assert (trace (create_bsdiff P (source_swu self) t (temp_diff P self) w3).2
          = (trace w ++ [bsdiff_event self P t])%list) as Hstart.
  { unfold create_bsdiff. rewrite bind_log, Hw. cbn [negb].
    by destruct (run_command_cases P
                   ["bsdiff"; source_swu self; t; temp_diff P self]
                   "Binary diff with bsdiff"
                   (add_log w3 ["Creating bsdiff: " ++ path_name P (source_swu self)
                                ++ " -> " ++ path_name P t])) as (-> & _). }
  unfold bind at 1.
  destruct (create_bsdiff P (source_swu self) t (temp_diff P self) w3)
    as [[diffed | e] w4]; cbn [snd] in Hstart;
    [| exists []; cbn [snd]; by rewrite Hstart].
  destruct diffed; cbn [negb]; [| exists []; cbn [snd ret]; by rewrite Hstart].
  match goal with
  | |- context [trace (?m w4).2] => assert (grows m) as Hrest
  end.
  { apply grows_bind; [by apply grows_still | intros _].
    apply grows_bind; [intros w5; apply compress_with_zstd_trace | intros ok].
    destruct ok; cbn [negb]; [| by apply grows_still].
    apply grows_bind; [by apply grows_still | intros _].
    apply grows_bind.
    { destruct (recompressed_output self) as [r |];
        [| apply grows_generate_statistics].
      apply grows_bind; [by apply grows_still | intros there].
      destruct there; apply grows_generate_statistics. }
    intros _. apply grows_still. intros w5. rewrite !bind_log.
    by destruct (recompressed_output self). }
  destruct (Hrest w4) as [after Hafter]. exists after.
  by rewrite Hafter, Hstart, <- app_assoc.
Qed.


(** X12. Without [bsdiff] the job returns [False] after logging the error:
    it starts no process after the target has been selected and, the log
    file apart, leaves the file system as it was then, so no delta and no
    report are written.  When no recompressed output was requested, the
    whole job starts no process and leaves every path but the log file as
    it found it. *)
Theorem job_without_bsdiff w0 w1 (t : string) w2 :
  which P "bsdiff" = false ->
  size_probe P self w0 = (Ret tt, w1) ->
  select_target P self w1 = (Ret t, w2) ->
  (generate_delta P self w0).1 = Ret false
  /\ trace (generate_delta P self w0).2 = trace w2
  /\ logged_between w2 (generate_delta P self w0).2 "ERROR: bsdiff not found in PATH"
  /\ (forall p, p <> log_file P self ->
        fs (generate_delta P self w0).2 !! p = fs w2 !! p)
  /\ (recompressed_output self = None ->
      trace (generate_delta P self w0).2 = trace w0
      /\ forall p, p <> log_file P self ->
           fs (generate_delta P self w0).2 !! p = fs w0 !! p).
Proof.
  intros Hw Hprobe Hsel.
  assert (generate_delta P self w0
          = (Ret false,
             add_log w2
               [EmptyString;
                "Step 2: Creating binary diff between SWU files...";
                "This approach diffs the complete .swu files (compressed archives)";
                "which are smaller and faster than extracting/diffing internal images.";
                "This may take several minutes...";
                EmptyString;
                "Creating bsdiff: " ++ path_name P (source_swu self) ++ " -> "
                ++ path_name P t;
                "ERROR: bsdiff not found in PATH"])) as ->.
  { unfold generate_delta.
    rewrite (bind_ret_run _ _ _ _ _ Hprobe), (bind_ret_run _ _ _ _ _ Hsel).
    unfold diff_and_report. rewrite !bind_log.
    erewrite bind_ret_run; cycle 1.
    { unfold create_bsdiff. rewrite bind_log, Hw. cbn [negb].
      rewrite bind_log. reflexivity. }
    cbn [negb]. unfold ret. by rewrite !add_log_app. }
  cbn [fst snd fs trace add_log]. split_and!; [done | done | | done |].
  - eexists [_; _; _; _; _; _; _], []. reflexivity.
  - intros Hnone. rewrite (select_target_none _ Hnone) in Hsel.
    destruct (size_probe_fs _ _ _ _ Hprobe) as [Hfs Htr]. simplify_eq.
    cbn [fs trace add_log]. split; [done |]. intros p _. by rewrite Hfs.
Qed.

(** X13. A job that returns [True] has found [bsdiff] and has run it on the
    source archive and the selected target, writing to the temporary diff
    in the work directory: it is the first process started after the target
    was selected, it ran in the file system that the selection left, and it
    exited with status 0.  The selected target is the original target or the
    requested recompressed output. *)
Theorem successful_job_ran_bsdiff w0 w1 (t : string) w2 w' :
  size_probe P self w0 = (Ret tt, w1) ->
  select_target P self w1 = (Ret t, w2) ->
  generate_delta P self w0 = (Ret true, w') ->
  which P "bsdiff" = true
  /\ (t = target_swu self \/ recompressed_output self = Some t)
  /\ (exists out err,
        (spawn P ["bsdiff"; source_swu self; t; temp_diff P self]
               None None (fs w2)).1 = Exited 0 out err)
  /\ exists after, trace w' = (trace w2 ++ bsdiff_event self P t :: after)%list.
Proof.
  intros Hprobe Hsel. unfold generate_delta.
  rewrite (bind_ret_run _ _ _ _ _ Hprobe), (bind_ret_run _ _ _ _ _ Hsel).
  intros H. apply select_target_result in Hsel.
  apply diff_and_report_inv in H
    as (w3 & w4 & w5 & w6 & Hdiff & Hfs & Htr3 & [l Hl] & _ & _ & Htr).
  apply create_bsdiff_true in Hdiff as (Hw & Htr4 & out & err & Hs).
  rewrite Hfs in Hs. split_and!; [done | done | by exists out, err |].
  exists l. by rewrite Htr, Hl, Htr4, Htr3, <- app_assoc.
Qed.

(** X14. After a job that returns [True], the report gives the sizes that
    the source archive, the reported target and the output delta have at
    the end of the job, where the reported target is the requested
    recompressed output if anything exists at that path and the original
    target otherwise; all three exist.  This holds when the statistics file
    is none of these paths. *)
Theorem report_gives_final_sizes w0 w' :
  stats_file P self <> source_swu self ->
  stats_file P self <> target_swu self ->
  stats_file P self <> output_diff self ->
  recompressed_output self <> Some (stats_file P self) ->
  generate_delta P self w0 = (Ret true, w') ->
  fs w' !! stats_file P self
  = Some (File (render_statistics P
                  (statistics_of
                     (size_at P (fs w') (source_swu self))
                     (size_at P (fs w') (reported_target self (fs w')))
                     (size_at P (fs w') (output_diff self)))))
  /\ is_Some (fs w' !! source_swu self)
  /\ is_Some (fs w' !! reported_target self (fs w'))
  /\ is_Some (fs w' !! output_diff self).
Proof.
  intros Hs Ht Hd Hr. unfold generate_delta.
  intros ([] & w1 & _ & H)%bind_inv.
  apply bind_inv in H as (t & w2 & _ & H).
  apply diff_and_report_inv in H
    as (w3 & w4 & w5 & w6 & _ & _ & _ & _ & Hgen & Hfs' & _).
  apply generate_statistics_run in Hgen as (Hfs & _ & Hsrc & Htgt & Hdiff).
  rewrite <- Hfs' in Hfs. clear Hfs'.
  assert (reported_target self (fs w') = reported_target self (fs w5)) as Hrep.
  { unfold reported_target. destruct (recompressed_output self) as [r |]; [| done].
    unfold exists_in. rewrite Hfs, lookup_insert_ne; [done | congruence]. }
  assert (stats_file P self <> reported_target self (fs w5)) as Hne.
  { unfold reported_target. destruct (recompressed_output self) as [r |]; [| done].
    destruct (exists_in (fs w5) r); congruence. }
  rewrite Hrep. unfold size_at. rewrite Hfs at 1. rewrite lookup_insert_eq.
  rewrite Hfs, !lookup_insert_ne by done. by split_and!.
Qed.

End Job.

(** ** The additional properties on the toy platform *)


(** X4 on a well-formed target. *)
Lemma extract_swu_names_clean_witness : two <> [] /\ Forall clean two.
Proof.
  apply (extract_swu_names_clean P_new v2 scratch two w_ready
           (extract_swu P_new v2 scratch w_ready).2).
  apply (run_eta (extract_swu _ _ _ _)). vm_compute. reflexivity.
Defined.


(** X7 where no program can be started. *)
Lemma unstartable_cpio_raises_witness :
  (extract_swu P_bare v2 scratch w_plain).1 = Raise (OSError "cpio")
  /\ trace (extract_swu P_bare v2 scratch w_plain).2
     = [Spawn cpio_list_argv None (Some (archive two))].
Proof.
  destruct (unstartable_cpio_raises P_bare v2 scratch w_plain (archive two))
    as [Hraise Htrace].
  - vm_compute. reflexivity.
  - reflexivity.
  - split; [exact Hraise | exact Htrace].
Defined.

(** X8 on a well-formed target, in its scratch directory. *)
Lemma extract_swu_outcome_witness :
  exists data data1 : string,
    trace (extract_swu P_new v2 scratch w_ready).2
    = [Spawn cpio_list_argv None (Some data);
       Spawn cpio_extract_argv (Some scratch) (Some data1)].
Proof.
  destruct (extract_swu_outcome P_new v2 scratch w_ready (Some two)
              (extract_swu P_new v2 scratch w_ready).2)
    as (data & data1 & rc & rc2 & stdout & err & out2 & err2 & f1 & f2
        & _ & _ & _ & _ & Htrace & _).
  - apply (run_eta (extract_swu _ _ _ _)). vm_compute. reflexivity.
  - exists data, data1. exact Htrace.
Defined.

(** X9 on a well-formed target: the archive is at the output path. *)
Lemma recompress_swu_success_witness :
  exists built_archive,
    fs (recompress_swu P_new job v2 out w_plain).2 !! out
    = Some (File built_archive).
Proof.
  destruct (recompress_swu_success P_new job v2 out 26 two w_plain
              (extracted P_new w_plain))
    as (f1 & built_archive & err & f2 & _ & _ & _ & Hfs).
  - apply (run_eta (recompress_extract _ job v2 out _)). vm_compute. reflexivity.
  - vm_compute. reflexivity.
  - exists built_archive. rewrite Hfs.
    + apply lookup_insert_eq.
    + vm_compute. reflexivity.
    + vm_compute. discriminate.
Defined.

(** X10 with an output path in a directory that does not exist. *)
Lemma recompress_swu_caught_failures_witness :
  (recompress_swu P_new job v2 "nowhere/v2.swu" w_plain).1 = Ret false
  /\ trace (recompress_swu P_new job v2 "nowhere/v2.swu" w_plain).2
     = trace (recompress_extract P_new job v2 "nowhere/v2.swu" w_plain).2.
Proof.
  destruct (recompress_swu_caught_failures P_new job v2 "nowhere/v2.swu" 26 two
              w_plain (recompress_extract P_new job v2 "nowhere/v2.swu" w_plain).2)
    as [H _].
  - apply (run_eta (recompress_extract _ job v2 _ _)). vm_compute. reflexivity.
  - vm_compute. discriminate.
  - destruct H as (Hresult & Htrace & _).
    + vm_compute. reflexivity.
    + split; [exact Hresult | exact Htrace].
Defined.


(** X12 where no program can be found, without a recompressed output. *)
Lemma job_without_bsdiff_witness :
  (generate_delta P_bare job_plain w_plain).1 = Ret false
  /\ trace (generate_delta P_bare job_plain w_plain).2 = []
  /\ fs (generate_delta P_bare job_plain w_plain).2 !! v2 = fs w_plain !! v2.
Proof.
  destruct (job_without_bsdiff P_bare job_plain w_plain
              (size_probe P_bare job_plain w_plain).2 v2
              (select_target P_bare job_plain
                 (size_probe P_bare job_plain w_plain).2).2)
    as (Hresult & _ & _ & _ & Hnone).
  - reflexivity.
  - apply (run_eta (size_probe _ _ _)). vm_compute. reflexivity.
  - apply (run_eta (select_target _ _ _)). vm_compute. reflexivity.
  - destruct Hnone as [Htrace Hfs]; [reflexivity |].
    split_and!; [exact Hresult | exact Htrace |].
    apply Hfs. vm_compute. discriminate.
Defined.

(** X13 on a job that succeeds. *)
Lemma successful_job_ran_bsdiff_witness :
  exists after,
    trace (generate_delta P_new job w_plain).2
    = (trace (select_target P_new job (size_probe P_new job w_plain).2).2
       ++ bsdiff_event job P_new out :: after)%list.
Proof.
  destruct (successful_job_ran_bsdiff P_new job w_plain
              (size_probe P_new job w_plain).2 out
              (select_target P_new job (size_probe P_new job w_plain).2).2
              (generate_delta P_new job w_plain).2)
    as (_ & _ & _ & Htrace).
  - apply (run_eta (size_probe _ _ _)). vm_compute. reflexivity.
  - apply (run_eta (select_target _ _ _)). vm_compute. reflexivity.
  - apply (run_eta (generate_delta _ _ _)). vm_compute. reflexivity.
  - exact Htrace.
Defined.

(** X14 on a job that succeeds. *)
Lemma report_gives_final_sizes_witness :
  is_Some (fs (generate_delta P_new job w_plain).2 !! output_diff job)
  /\ fs (generate_delta P_new job w_plain).2 !! stats_file P_new job
     = Some (File (render_statistics P_new
                     (statistics_of
                        (size_at P_new (fs (generate_delta P_new job w_plain).2)
                           (source_swu job))
                        (size_at P_new (fs (generate_delta P_new job w_plain).2)
                           (reported_target job
                              (fs (generate_delta P_new job w_plain).2)))
                        (size_at P_new (fs (generate_delta P_new job w_plain).2)
                           (output_diff job))))).
Proof.
  destruct (report_gives_final_sizes P_new job w_plain
              (generate_delta P_new job w_plain).2)
    as (Hreport & _ & _ & Hdiff).
  - vm_compute. discriminate.
  - vm_compute. discriminate.
  - vm_compute. discriminate.
  - vm_compute. discriminate.
  - apply (run_eta (generate_delta _ _ _)). vm_compute. reflexivity.
  - split; [exact Hdiff | exact Hreport].
Defined.

(** X1 and X2 on the diff of the two archives. *)
Lemma run_command_outcome_witness :
  trace (run_command P_new ["bsdiff"; "in/v1.swu"; "in/v2.swu"; "work/swu.diff"]
                     "Binary diff with bsdiff" w_plain).2
  = [Spawn ["bsdiff"; "in/v1.swu"; "in/v2.swu"; "work/swu.diff"] None None].
Proof.
  destruct (run_command_outcome P_new
              ["bsdiff"; "in/v1.swu"; "in/v2.swu"; "work/swu.diff"]
              "Binary diff with bsdiff" w_plain true
              (run_command P_new ["bsdiff"; "in/v1.swu"; "in/v2.swu"; "work/swu.diff"]
                           "Binary diff with bsdiff" w_plain).2)
    as [Htrace _].
  - apply (run_eta (run_command _ _ _ _)). vm_compute. reflexivity.
  - exact Htrace.
Defined.

Lemma create_bsdiff_outcome_witness :
  which P_new "bsdiff" = true
  /\ trace (create_bsdiff P_new "in/v1.swu" "in/v2.swu" "work/swu.diff" w_plain).2
     = [Spawn ["bsdiff"; "in/v1.swu"; "in/v2.swu"; "work/swu.diff"] None None].
Proof.
  destruct (create_bsdiff_outcome P_new "in/v1.swu" "in/v2.swu" "work/swu.diff"
              w_plain true
              (create_bsdiff P_new "in/v1.swu" "in/v2.swu" "work/swu.diff" w_plain).2)
    as [Htrue _].
  - apply (run_eta (create_bsdiff _ _ _ _ _)). vm_compute. reflexivity.
  - destruct Htrue as (Hwhich & Htrace & _); [reflexivity |].
    split; [exact Hwhich | exact Htrace].
Defined.

(** X17 on the well-formed member order, with the [echo] of the toy
    platform. *)
Lemma name_loop_passes_names_witness :
  read_lines (name_loop echo (feed two)) = two.
Proof.
  destruct (name_loop_passes_names echo two) as [_ Hsame].
  - discriminate.
  - repeat constructor.
    all: intros c Hc%list_elem_of_In; vm_compute in Hc;
      repeat (destruct Hc as [<- | Hc]; [reflexivity |]); destruct Hc.
  - apply Hsame. repeat constructor.
Defined.

